(** * TicketBoard front end: a shallow embedding of its services and hooks

    The development follows the JavaScript sources:
    - [src/services/api.js] (the axios client, its interceptors and the
      service objects), in its two revisions;
    - [src/hooks/useAuth.js], [src/hooks/useTickets.js] and
      [src/hooks/useApiHealth.js];
    - the two fetch-based [api.js] revisions and the minimal [App.js].

    Asynchronous functions are computations in a state-and-rejection monad:
    they take the state of the page, and give back how their promise settles
    together with the new state.  The backend is a transition system that is
    a parameter of every section. *)

From stdpp Require Import gmap list strings pretty.

Set Default Proof Using "Type".
Local Open Scope Z_scope.

(** ** JavaScript strings *)

(** A string is its sequence of UTF-16 code units. *)
Definition JsString : Type := list N.

Definition js (s : string) : JsString :=
  map Ascii.N_of_ascii (String.list_ascii_of_string s).
Arguments js s%_string.

(** ToBoolean on a string: only the empty string is falsy. *)
Definition truthy (s : JsString) : bool :=
  match s with
  | [] => false
  | _ :: _ => true
  end.

(** [a || b] where [a] is a string or [undefined]. *)
Definition or_else (a : option JsString) (b : JsString) : JsString :=
  match a with
  | Some s => if truthy s then s else b
  | None => b
  end.

(** ** Promises *)

Inductive Settled (E A : Type) : Type :=
| Resolve (value : A)
| Reject (reason : E).
Arguments Resolve {E A} value.
Arguments Reject {E A} reason.

(** An asynchronous computation over a state [W], rejecting with [E]. *)
Definition Async (W E A : Type) : Type := W → Settled E A * W.

Definition resolve {W E A} (a : A) : Async W E A := λ w, (Resolve a, w).

Definition reject {W E A} (e : E) : Async W E A := λ w, (Reject e, w).

Definition bind {W E A B} (m : Async W E A) (k : A → Async W E B)
  : Async W E B :=
  λ w, match m w with
       | (Resolve a, w') => k a w'
       | (Reject e, w') => (Reject e, w')
       end.

(** [promise.then(onFulfilled, onRejected)] *)
Definition then_ {W E A B} (m : Async W E A)
    (onFulfilled : A → Async W E B) (onRejected : E → Async W E B)
  : Async W E B :=
  λ w, match m w with
       | (Resolve a, w') => onFulfilled a w'
       | (Reject e, w') => onRejected e w'
       end.

(** [try { m } catch (e) { h e }] *)
Definition try_catch {W E A} (m : Async W E A) (h : E → Async W E A)
  : Async W E A :=
  then_ m resolve h.

(** [try { m } finally { f }]: [f] runs however [m] settles, and the outcome
    is that of [m] unless [f] itself rejects. *)
Definition try_finally {W E A} (m : Async W E A) (f : Async W E unit)
  : Async W E A :=
  λ w, let '(r, w') := m w in
       match f w' with
       | (Resolve _, w'') => (r, w'')
       | (Reject e, w'') => (Reject e, w'')
       end.

(** A synchronous state update. *)
Definition modify {W E} (f : W → W) : Async W E unit := λ w, (Resolve tt, f w).

Definition gets {W E A} (f : W → A) : Async W E A := λ w, (Resolve (f w), w).

(** Calling an async function without awaiting it: the caller goes on
    whatever the outcome, and a rejection stays unhandled. *)
Definition detached {W E A} (m : Async W E A) : Async W E unit :=
  λ w, (Resolve tt, snd (m w)).

Declare Scope async_scope.
Delimit Scope async_scope with async.
Notation "m >>= k" := (bind m k)
  (at level 60, right associativity) : async_scope.
Notation "m >> k" := (bind m (λ _, k))
  (at level 60, right associativity) : async_scope.
Local Open Scope async_scope.

(** ** Data model *)

(** Identifiers are assigned by the server: numbers or strings.  Strict
    equality [===] on them is equality of the values. *)
Inductive TicketId : Type :=
| IdNum (n : Z)
| IdStr (s : JsString).

Global Instance TicketId_eq_dec : EqDecision TicketId.
Proof. solve_decision. Defined.

Inductive Priority : Type := LOW | MEDIUM | HIGH.
Inductive Status : Type := OPEN | IN_PROGRESS | CLOSED.

Record Ticket : Type := {
  id : TicketId;
  title : JsString;
  description : option JsString;
  priority : Priority;
  status : Status
}.

Record TicketData : Type := {
  new_title : JsString;
  new_description : option JsString;
  new_priority : option Priority
}.

Record User : Type := { username : JsString; email : JsString }.

Record Credentials : Type := {
  cred_username : JsString;
  cred_password : JsString
}.

Record UserData : Type := {
  reg_username : JsString;
  reg_email : JsString;
  reg_password : JsString
}.

(** The [{token, user}] object of a login or a registration. *)
Record Session : Type := { token : JsString; session_user : User }.

(** [`${id}`] *)
Definition id_to_string (i : TicketId) : JsString :=
  match i with
  | IdNum n => js (pretty n)
  | IdStr s => s
  end.

(** ** The axios client: requests, responses, errors *)

Inductive Method : Type := GET | POST | PUT | DELETE.

Inductive Body : Type :=
| NoBody
| TicketBody (d : TicketData)
| CredentialsBody (c : Credentials)
| UserBody (u : UserData).

(** The request configuration handed to the transport. *)
Record Request : Type := {
  baseURL : JsString;
  method : Method;
  url : JsString;
  headers : list (JsString * JsString);
  timeout : Z;
  body : Body
}.

(** [response.data], read at the type the endpoint promises. *)
Record Response (A : Type) : Type := { data : A }.
Arguments data {A} _.

(** [error.response?.data?.message]: every step may be missing. *)
Record ErrorData : Type := { message : option JsString }.
Record ErrorResponse : Type := {
  err_status : Z;
  err_data : option ErrorData
}.
Record AxiosError : Type := { response : option ErrorResponse }.

Definition response_status (error : AxiosError) : option Z :=
  err_status <$> response error.

Definition response_data_message (error : AxiosError) : option JsString :=
  r ← response error; d ← err_data r; message d.

(** What the caller expects in [response.data]. *)
Inductive Contract : Type → Type :=
| TicketArray : Contract (list Ticket)
| TicketObject : Contract Ticket
| SessionObject : Contract Session
| UserObject : Contract User
| Ignored : Contract unit.

(** The backend is outside the repository: a transition system that answers
    each request.  Its answer is what axios settles the call with before the
    response interceptors run: a response (status 2xx), or an error that
    carries the response of any other status, or no response at all (network
    failure, timeout). *)
Definition Backend (Server : Type) : Type :=
  ∀ A, Contract A → Request → Server → Settled AxiosError (Response A) * Server.

(** The part of the page the client touches: [localStorage],
    [window.location.href], and the network (the backend's state and the
    requests sent so far, oldest first). *)
Record Browser (Server : Type) : Type := {
  localStorage : gmap JsString JsString;
  location_href : JsString;
  server : Server;
  sent : list Request
}.
Arguments localStorage {Server} _.
Arguments location_href {Server} _.
Arguments server {Server} _.
Arguments sent {Server} _.

Section Client.
Context {Server : Type}.
Variable serve : Backend Server.
Variable API_BASE_URL : JsString.

Definition localStorage_getItem (key : JsString)
  : Async (Browser Server) AxiosError (option JsString) :=
  gets (λ b, localStorage b !! key).

Definition localStorage_setItem (key value : JsString)
  : Async (Browser Server) AxiosError unit :=
  modify (λ b, {| localStorage := <[key := value]> (localStorage b);
                  location_href := location_href b;
                  server := server b;
                  sent := sent b |}).

Definition localStorage_removeItem (key : JsString)
  : Async (Browser Server) AxiosError unit :=
  modify (λ b, {| localStorage := delete key (localStorage b);
                  location_href := location_href b;
                  server := server b;
                  sent := sent b |}).

Definition set_location_href (href : JsString)
  : Async (Browser Server) AxiosError unit :=
  modify (λ b, {| localStorage := localStorage b;
                  location_href := href;
                  server := server b;
                  sent := sent b |}).

(** The network: the request is recorded and the backend answers it. *)
Definition dispatch {A} (k : Contract A) (config : Request)
  : Async (Browser Server) AxiosError (Response A) :=
  λ b, let '(r, s) := serve A k config (server b) in
       (r, {| localStorage := localStorage b;
              location_href := location_href b;
              server := s;
              sent := sent b ++ [config] |}).

(** [axios.create({ baseURL, headers, timeout })] *)
Definition api_config (m : Method) (path : JsString) (d : Body) : Request :=
  {| baseURL := API_BASE_URL;
     method := m;
     url := path;
     headers := [(js "Content-Type", js "application/json")];
     timeout := 15000;
     body := d |}.

Definition with_Authorization (value : JsString) (config : Request)
  : Request :=
  {| baseURL := baseURL config;
     method := method config;
     url := url config;
     headers := headers config ++ [(js "Authorization", value)];
     timeout := timeout config;
     body := body config |}.

(** [api.interceptors.request.use] *)
Definition request_fulfilled (config : Request)
  : Async (Browser Server) AxiosError Request :=
  localStorage_getItem (js "authToken") >>= λ token,
  match token with
  | Some t =>
      if truthy t
      then resolve (with_Authorization (js "Bearer " ++ t) config)
      else resolve config
  | None => resolve config
  end.

Definition request_rejected (error : AxiosError)
  : Async (Browser Server) AxiosError Request :=
  reject error.

(** [api.interceptors.response.use] *)
Definition response_fulfilled {A} (response : Response A)
  : Async (Browser Server) AxiosError (Response A) :=
  resolve response.

Definition response_rejected {A} (error : AxiosError)
  : Async (Browser Server) AxiosError (Response A) :=
  (if decide (response_status error = Some 401)
   then localStorage_removeItem (js "authToken") >>
        set_location_href (js "/login")
   else resolve tt) >>
  reject error.

(** A call through the instance: first the request interceptors and the
    network, *)
Definition outbound {A} (k : Contract A) (m : Method) (path : JsString)
    (d : Body) : Async (Browser Server) AxiosError (Response A) :=
  then_ (resolve (api_config m path d)) request_fulfilled request_rejected
  >>= dispatch k.

(** then the response interceptors. *)
Definition api_request {A} (k : Contract A) (m : Method) (path : JsString)
    (d : Body) : Async (Browser Server) AxiosError (Response A) :=
  then_ (outbound k m path d) response_fulfilled response_rejected.

Definition api_get {A} (k : Contract A) (path : JsString) :=
  api_request k GET path NoBody.
Definition api_post {A} (k : Contract A) (path : JsString) (d : Body) :=
  api_request k POST path d.
Definition api_put {A} (k : Contract A) (path : JsString) (d : Body) :=
  api_request k PUT path d.
Definition api_delete {A} (k : Contract A) (path : JsString) :=
  api_request k DELETE path NoBody.

End Client.

(** A component's view of the page: the browser [B] and the component's own
    React state.  A state setter takes effect at once; the component is the
    only writer. *)
Record Page (B St : Type) : Type := {
  browser : B;
  state : St
}.
Arguments browser {B St} _.
Arguments state {B St} _.

Definition in_browser {B St E A} (m : Async B E A) : Async (Page B St) E A :=
  λ p, let '(r, b) := m (browser p) in (r, {| browser := b; state := state p |}).

Definition setState {B St E} (f : St → St) : Async (Page B St) E unit :=
  modify (λ p, {| browser := browser p; state := f (state p) |}).

(** The [{ success, data, error }] objects the hooks return. *)
Inductive Result (A : Type) : Type :=
| Success (data : A)
| Failure (error : JsString).
Arguments Success {A} data.
Arguments Failure {A} error.

(** ** [src/services/api.js], the revision with the endpoints the backend has *)

Module MinimalApi.
Section Services.
Context {Server : Type}.
Variable serve : Backend Server.
Variable VITE_API_URL : option JsString.

Definition API_BASE_URL : JsString :=
  or_else VITE_API_URL (js "http://backend-service:80").

Definition ticketService_getAllTickets
  : Async (Browser Server) AxiosError (Response (list Ticket)) :=
  api_get serve API_BASE_URL TicketArray (js "/tickets").

Definition ticketService_createTicket (ticketData : TicketData)
  : Async (Browser Server) AxiosError (Response Ticket) :=
  api_post serve API_BASE_URL TicketObject (js "/tickets")
    (TicketBody ticketData).

Definition authService_logout : Async (Browser Server) AxiosError unit :=
  localStorage_removeItem (js "authToken") >>
  resolve tt.

Definition healthService_checkBackend
  : Async (Browser Server) AxiosError (Response unit) :=
  api_get serve API_BASE_URL Ignored (js "/healthz").

End Services.
End MinimalApi.

(** ** [src/services/api.js] as written by [migrate-to-vite.sh] *)

Module ViteApi.
Section Services.
Context {Server : Type}.
Variable serve : Backend Server.
Variable VITE_API_URL : option JsString.

Definition API_BASE_URL : JsString :=
  or_else VITE_API_URL (js "http://localhost:8080").

Definition ticketService_getAllTickets
  : Async (Browser Server) AxiosError (Response (list Ticket)) :=
  api_get serve API_BASE_URL TicketArray (js "/api/tickets").

Definition ticketService_getTicketById (id : TicketId)
  : Async (Browser Server) AxiosError (Response Ticket) :=
  api_get serve API_BASE_URL TicketObject
    (js "/api/tickets/" ++ id_to_string id).

Definition ticketService_createTicket (ticketData : TicketData)
  : Async (Browser Server) AxiosError (Response Ticket) :=
  api_post serve API_BASE_URL TicketObject (js "/api/tickets")
    (TicketBody ticketData).

Definition ticketService_updateTicket (id : TicketId) (ticketData : TicketData)
  : Async (Browser Server) AxiosError (Response Ticket) :=
  api_put serve API_BASE_URL TicketObject
    (js "/api/tickets/" ++ id_to_string id) (TicketBody ticketData).

Definition ticketService_deleteTicket (id : TicketId)
  : Async (Browser Server) AxiosError (Response unit) :=
  api_delete serve API_BASE_URL Ignored
    (js "/api/tickets/" ++ id_to_string id).

Definition ticketService_searchTickets (query : JsString)
  : Async (Browser Server) AxiosError (Response (list Ticket)) :=
  api_get serve API_BASE_URL TicketArray
    (js "/api/tickets/search?q=" ++ query).

Definition authService_login (credentials : Credentials)
  : Async (Browser Server) AxiosError (Response Session) :=
  api_post serve API_BASE_URL SessionObject (js "/api/auth/login")
    (CredentialsBody credentials).

Definition authService_register (userData : UserData)
  : Async (Browser Server) AxiosError (Response Session) :=
  api_post serve API_BASE_URL SessionObject (js "/api/auth/register")
    (UserBody userData).

Definition authService_verifyToken
  : Async (Browser Server) AxiosError (Response User) :=
  api_get serve API_BASE_URL UserObject (js "/api/auth/verify").

Definition authService_logout : Async (Browser Server) AxiosError unit :=
  localStorage_removeItem (js "authToken") >>
  resolve tt.

Definition healthService_checkBackend
  : Async (Browser Server) AxiosError (Response unit) :=
  api_get serve API_BASE_URL Ignored (js "/health").

Definition healthService_checkDatabase
  : Async (Browser Server) AxiosError (Response unit) :=
  api_get serve API_BASE_URL Ignored (js "/api/health/db").

End Services.
End ViteApi.

(** ** [src/hooks/useAuth.js] *)

Module useAuth.

Record State : Type := { user : option User; loading : bool }.

(** [useState(null)], [useState(true)] *)
Definition initial : State := {| user := None; loading := true |}.

(** [isAuthenticated: !!user] *)
Definition isAuthenticated (s : State) : bool :=
  match user s with
  | Some _ => true
  | None => false
  end.

Section Hook.
Context {Server : Type}.
Variable serve : Backend Server.
Variable VITE_API_URL : option JsString.

Definition setUser (u : option User)
  : Async (Page (Browser Server) State) AxiosError unit :=
  setState (λ s, {| user := u; loading := loading s |}).

Definition setLoading (l : bool)
  : Async (Page (Browser Server) State) AxiosError unit :=
  setState (λ s, {| user := user s; loading := l |}).

Definition checkAuth : Async (Page (Browser Server) State) AxiosError unit :=
  try_finally
    (try_catch
       (in_browser (localStorage_getItem (js "authToken")) >>= λ token,
        match token with
        | Some t =>
            if truthy t
            then in_browser (ViteApi.authService_verifyToken serve VITE_API_URL)
                 >>= λ response,
                 setUser (Some (data response))
            else resolve tt
        | None => resolve tt
        end)
       (λ error, in_browser (localStorage_removeItem (js "authToken"))))
    (setLoading false).

Definition login (credentials : Credentials)
  : Async (Page (Browser Server) State) AxiosError (Result unit) :=
  try_catch
    (in_browser (ViteApi.authService_login serve VITE_API_URL credentials)
     >>= λ response,
     let '{| token := token; session_user := user |} := data response in
     in_browser (localStorage_setItem (js "authToken") token) >>
     setUser (Some user) >>
     resolve (Success tt))
    (λ error,
     resolve (Failure (or_else (response_data_message error)
                               (js "Error en el login")))).

Definition register (userData : UserData)
  : Async (Page (Browser Server) State) AxiosError (Result unit) :=
  try_catch
    (in_browser (ViteApi.authService_register serve VITE_API_URL userData)
     >>= λ response,
     let '{| token := token; session_user := user |} := data response in
     in_browser (localStorage_setItem (js "authToken") token) >>
     setUser (Some user) >>
     resolve (Success tt))
    (λ error,
     resolve (Failure (or_else (response_data_message error)
                               (js "Error en el registro")))).

Definition logout : Async (Page (Browser Server) State) AxiosError unit :=
  detached (in_browser (@ViteApi.authService_logout Server)) >>
  setUser None.

End Hook.
End useAuth.

(** ** [src/hooks/useTickets.js] *)

Module useTickets.

Record State : Type := {
  tickets : list Ticket;
  loading : bool;
  error : option JsString
}.

(** [useState([])], [useState(false)], [useState(null)] *)
Definition initial : State :=
  {| tickets := []; loading := false; error := None |}.

Section Hook.
Context {Server : Type}.
Variable serve : Backend Server.
Variable VITE_API_URL : option JsString.

Definition setTickets (f : list Ticket → list Ticket)
  : Async (Page (Browser Server) State) AxiosError unit :=
  setState (λ s, {| tickets := f (tickets s);
                    loading := loading s;
                    error := error s |}).

Definition setLoading (l : bool)
  : Async (Page (Browser Server) State) AxiosError unit :=
  setState (λ s, {| tickets := tickets s; loading := l; error := error s |}).

Definition setError (e : option JsString)
  : Async (Page (Browser Server) State) AxiosError unit :=
  setState (λ s, {| tickets := tickets s; loading := loading s; error := e |}).

Definition fetchTickets : Async (Page (Browser Server) State) AxiosError unit :=
  try_finally
    (try_catch
       (setLoading true >>
        setError None >>
        in_browser (ViteApi.ticketService_getAllTickets serve VITE_API_URL)
        >>= λ response,
        setTickets (λ _, data response))
       (λ err,
        setError (Some (or_else (response_data_message err)
                                (js "Error al cargar tickets")))))
    (setLoading false).

Definition createTicket (ticketData : TicketData)
  : Async (Page (Browser Server) State) AxiosError (Result Ticket) :=
  try_catch
    (in_browser
       (ViteApi.ticketService_createTicket serve VITE_API_URL ticketData)
     >>= λ response,
     setTickets (λ prev, data response :: prev) >>
     resolve (Success (data response)))
    (λ err,
     let errorMsg :=
       or_else (response_data_message err) (js "Error al crear ticket") in
     resolve (Failure errorMsg)).

Definition updateTicket (id' : TicketId) (ticketData : TicketData)
  : Async (Page (Browser Server) State) AxiosError (Result Ticket) :=
  try_catch
    (in_browser
       (ViteApi.ticketService_updateTicket serve VITE_API_URL id' ticketData)
     >>= λ response,
     setTickets (λ prev,
       map (λ ticket, if decide (id ticket = id') then data response
                      else ticket) prev) >>
     resolve (Success (data response)))
    (λ err,
     let errorMsg :=
       or_else (response_data_message err) (js "Error al actualizar ticket") in
     resolve (Failure errorMsg)).

Definition deleteTicket (id' : TicketId)
  : Async (Page (Browser Server) State) AxiosError (Result unit) :=
  try_catch
    (in_browser (ViteApi.ticketService_deleteTicket serve VITE_API_URL id') >>
     setTickets (λ prev, filter (λ ticket, id ticket ≠ id') prev) >>
     resolve (Success tt))
    (λ err,
     let errorMsg :=
       or_else (response_data_message err) (js "Error al eliminar ticket") in
     resolve (Failure errorMsg)).

End Hook.
End useTickets.

(** ** [src/hooks/useApiHealth.js] *)

Module useApiHealth.

Inductive HealthStatus : Type := checking | healthy | unhealthy.

Record State : Type := {
  backendStatus : HealthStatus;
  dbStatus : HealthStatus
}.

(** [useState('checking')], twice *)
Definition initial : State :=
  {| backendStatus := checking; dbStatus := checking |}.

Section Hook.
Context {Server : Type}.
Variable serve : Backend Server.
Variable VITE_API_URL : option JsString.

Definition setBackendStatus (h : HealthStatus)
  : Async (Page (Browser Server) State) AxiosError unit :=
  setState (λ s, {| backendStatus := h; dbStatus := dbStatus s |}).

Definition setDbStatus (h : HealthStatus)
  : Async (Page (Browser Server) State) AxiosError unit :=
  setState (λ s, {| backendStatus := backendStatus s; dbStatus := h |}).

Definition checkHealth : Async (Page (Browser Server) State) AxiosError unit :=
  try_catch
    (in_browser (ViteApi.healthService_checkBackend serve VITE_API_URL) >>
     setBackendStatus healthy >>
     in_browser (ViteApi.healthService_checkDatabase serve VITE_API_URL) >>
     setDbStatus healthy)
    (λ error,
     setBackendStatus unhealthy >>
     setDbStatus unhealthy).

End Hook.
End useApiHealth.

(** ** The fetch-based client *)

(** [String.prototype.trim]: white space and line terminators. *)
Definition is_white_space (c : N) : bool :=
  ((9 <=? c) && (c <=? 13) || (c =? 32) || (c =? 160) || (c =? 5760)
   || (8192 <=? c) && (c <=? 8202) || (c =? 8232) || (c =? 8233)
   || (c =? 8239) || (c =? 8287) || (c =? 12288) || (c =? 65279))%N.

Fixpoint trimStart (s : JsString) : JsString :=
  match s with
  | [] => []
  | c :: rest => if is_white_space c then trimStart rest else s
  end.

Definition trimEnd (s : JsString) : JsString := rev (trimStart (rev s)).

Definition trim (s : JsString) : JsString := trimEnd (trimStart s).

(** [JSON.stringify] on a string (QuoteJSONString). *)
Definition hex_digit (d : N) : N :=
  (if d <? 10 then 48 + d else 87 + d)%N.

Definition unicode_escape (c : N) : JsString :=
  [92; 117; hex_digit (c / 4096 mod 16); hex_digit (c / 256 mod 16);
   hex_digit (c / 16 mod 16); hex_digit (c mod 16)]%N.

Definition is_leading_surrogate (c : N) : bool :=
  ((55296 <=? c) && (c <=? 56319))%N.

Definition is_trailing_surrogate (c : N) : bool :=
  ((56320 <=? c) && (c <=? 57343))%N.

Definition quote_unit (c : N) : JsString :=
  (if c =? 8 then [92; 98]
   else if c =? 9 then [92; 116]
   else if c =? 10 then [92; 110]
   else if c =? 12 then [92; 102]
   else if c =? 13 then [92; 114]
   else if c =? 34 then [92; 34]
   else if c =? 92 then [92; 92]
   else if (c <? 32) || is_leading_surrogate c || is_trailing_surrogate c
        then unicode_escape c
   else [c])%N.

Fixpoint quote_units (s : JsString) : JsString :=
  match s with
  | [] => []
  | c :: rest =>
      match rest with
      | d :: rest' =>
          if is_leading_surrogate c && is_trailing_surrogate d
          then c :: d :: quote_units rest'
          else quote_unit c ++ quote_units rest
      | [] => quote_unit c
      end
  end.

Definition QuoteJSONString (s : JsString) : JsString :=
  [34%N] ++ quote_units s ++ [34%N].

(** [JSON.stringify({ title })] for a string [title] *)
Definition JSON_stringify_title (title : JsString) : JsString :=
  [123%N] ++ QuoteJSONString (js "title") ++ [58%N] ++ QuoteJSONString title
  ++ [125%N].

Module Fetch.

(** The second argument of [fetch]. *)
Record Init : Type := {
  method : JsString;
  headers : list (JsString * JsString);
  body : JsString
}.

Record Request : Type := {
  resource : JsString;
  init : option Init
}.

(** [process.env], as the build inlines it. *)
Record ProcessEnv : Type := {
  NODE_ENV : option JsString;
  REACT_APP_API_URL : option JsString
}.

Inductive Error : Type :=
| NetworkError
| SyntaxError.

(** [GET base/tickets], as [fetch] with one argument sends it. *)
Definition list_request (base : JsString) : Request :=
  {| resource := base ++ js "/tickets"; init := None |}.

(** [POST base/tickets] with the title as a JSON object. *)
Definition create_request (base title : JsString) : Request :=
  {| resource := base ++ js "/tickets";
     init := Some {| method := js "POST";
                     headers := [(js "Content-Type", js "application/json")];
                     body := JSON_stringify_title title |} |}.

Section Api.
(** Parsed JSON; the client never looks inside. *)
Context {Json : Type}.

(** What [res.json()] gives: the parsed body, or nothing when the body is
    not JSON. *)
Record Response : Type := { json_body : option Json }.

(** The backend answers a request with a response, or not at all. *)
Definition Backend (Server : Type) : Type :=
  Request → Server → option Response * Server.

Record Network (Server : Type) : Type := {
  server : Server;
  sent : list Request
}.

Context {Server : Type}.
Variable serve : Backend Server.

(** [fetch(resource, init)]: rejects when there is no response. *)
Definition fetch (resource : JsString) (init : option Init)
  : Async (Network Server) Error Response :=
  λ n, let request := {| resource := resource; init := init |} in
       let '(r, s) := serve request (server _ n) in
       (match r with
        | Some res => Resolve res
        | None => Reject NetworkError
        end,
        {| server := s; sent := sent _ n ++ [request] |}).

(** [res.json()] *)
Definition json (res : Response) : Async (Network Server) Error Json :=
  match json_body res with
  | Some v => resolve v
  | None => reject SyntaxError
  end.

(** Send [request] and give back the parsed JSON of the response. *)
Definition exchange (request : Request) : Async (Network Server) Error Json :=
  fetch (resource request) (init request) >>= json.

End Api.
Arguments Response : clear implicits.
Arguments Backend : clear implicits.
Arguments server {Server} _.
Arguments sent {Server} _.

End Fetch.

(** ** [src/api.js], first fetch-based revision *)

Module ApiV1.
Section Api.
Context {Json Server : Type}.
Variable serve : Fetch.Backend Json Server.
Variable env : Fetch.ProcessEnv.

Definition API_BASE_URL : JsString :=
  or_else (Fetch.REACT_APP_API_URL env) (js "http://localhost:3000").

Definition getTickets : Async (Fetch.Network Server) Fetch.Error Json :=
  Fetch.fetch serve (API_BASE_URL ++ js "/tickets") None >>= λ res,
  Fetch.json res.

Definition createTicket (title : JsString)
  : Async (Fetch.Network Server) Fetch.Error Json :=
  Fetch.fetch serve (API_BASE_URL ++ js "/tickets")
    (Some {| Fetch.method := js "POST";
             Fetch.headers := [(js "Content-Type", js "application/json")];
             Fetch.body := JSON_stringify_title title |})
  >>= λ res,
  Fetch.json res.

End Api.
End ApiV1.

(** ** [src/api.js], the revision behind the nginx proxy *)

Module ApiV2.
Section Api.
Context {Json Server : Type}.
Variable serve : Fetch.Backend Json Server.
Variable env : Fetch.ProcessEnv.

Definition API_BASE_URL : JsString :=
  if decide (Fetch.NODE_ENV env = Some (js "production"))
  then js "/api"
  else or_else (Fetch.REACT_APP_API_URL env) (js "http://localhost:3000").

Definition getTickets : Async (Fetch.Network Server) Fetch.Error Json :=
  Fetch.fetch serve (API_BASE_URL ++ js "/tickets") None >>= λ res,
  Fetch.json res.

Definition createTicket (title : JsString)
  : Async (Fetch.Network Server) Fetch.Error Json :=
  Fetch.fetch serve (API_BASE_URL ++ js "/tickets")
    (Some {| Fetch.method := js "POST";
             Fetch.headers := [(js "Content-Type", js "application/json")];
             Fetch.body := JSON_stringify_title title |})
  >>= λ res,
  Fetch.json res.

End Api.
End ApiV2.

(** ** [src/App.js], the minimal component *)

Module App.

(** Which [./api] the bundle was built with. *)
Inductive ApiRevision : Type := V1 | V2.

Section Component.
Context {Json Server : Type}.
Variable serve : Fetch.Backend Json Server.
Variable env : Fetch.ProcessEnv.
Variable api : ApiRevision.

Record State : Type := {
  tickets : Json;
  title : JsString
}.

Definition getTickets : Async (Fetch.Network Server) Fetch.Error Json :=
  match api with
  | V1 => ApiV1.getTickets serve env
  | V2 => ApiV2.getTickets serve env
  end.

Definition API_BASE_URL : JsString :=
  match api with
  | V1 => ApiV1.API_BASE_URL env
  | V2 => ApiV2.API_BASE_URL env
  end.

(** The two requests the component causes, as they go out. *)
Definition list_request : Fetch.Request :=
  Fetch.list_request API_BASE_URL.

Definition create_request (title : JsString) : Fetch.Request :=
  Fetch.create_request API_BASE_URL title.

Definition createTicket (title : JsString)
  : Async (Fetch.Network Server) Fetch.Error Json :=
  match api with
  | V1 => ApiV1.createTicket serve env title
  | V2 => ApiV2.createTicket serve env title
  end.

Definition setTickets (data : Json)
  : Async (Page (Fetch.Network Server) State) Fetch.Error unit :=
  setState (λ s, {| tickets := data; title := title s |}).

Definition setTitle (t : JsString)
  : Async (Page (Fetch.Network Server) State) Fetch.Error unit :=
  setState (λ s, {| tickets := tickets s; title := t |}).

Definition fetchTickets
  : Async (Page (Fetch.Network Server) State) Fetch.Error unit :=
  in_browser getTickets >>= λ data,
  setTickets data.

(** [title] is the state of the render the handler closes over. *)
Definition handleAdd
  : Async (Page (Fetch.Network Server) State) Fetch.Error unit :=
  gets (λ p, title (state p)) >>= λ title,
  if negb (truthy (trim title)) then resolve tt
  else
    in_browser (createTicket title) >>
    setTitle (js "") >>
    detached fetchTickets.

End Component.
Arguments State : clear implicits.
Arguments tickets {Json} _.
Arguments title {Json} _.

End App.

(** ** Scripted backends for the examples *)

Module Sample.

Definition ticket1 : Ticket :=
  {| id := IdNum 1; title := js "Printer jam"; description := None;
     priority := MEDIUM; status := OPEN |}.

Definition ticket2 : Ticket :=
  {| id := IdNum 2; title := js "VPN down"; description := None;
     priority := HIGH; status := OPEN |}.

Definition ticket2' : Ticket :=
  {| id := IdNum 2; title := js "VPN down"; description := None;
     priority := HIGH; status := CLOSED |}.

Definition ticket3 : Ticket :=
  {| id := IdNum 3; title := js "New badge"; description := None;
     priority := LOW; status := OPEN |}.

Definition draft : TicketData :=
  {| new_title := js "New badge"; new_description := None;
     new_priority := Some LOW |}.

Definition alice : User :=
  {| username := js "alice"; email := js "alice@example.org" |}.

Definition credentials : Credentials :=
  {| cred_username := js "alice"; cred_password := js "secret" |}.

Definition http_error (status : Z) (msg : option JsString) : AxiosError :=
  {| response := Some {| err_status := status;
                         err_data := Some {| message := msg |} |} |}.

(** A backend that honours every request. *)
Definition up : Backend unit :=
  λ A k _ s,
    (Resolve
       {| data :=
            match k in Contract T return T with
            | TicketArray => [ticket1; ticket2]
            | TicketObject => ticket3
            | SessionObject => {| token := js "t0k3n"; session_user := alice |}
            | UserObject => alice
            | Ignored => tt
            end |}, s).

(** A backend that answers an update with the closed ticket 2. *)
Definition closing : Backend unit :=
  λ A k _ s,
    (Resolve
       {| data :=
            match k in Contract T return T with
            | TicketArray => []
            | TicketObject => ticket2'
            | SessionObject =>
                {| token := []; session_user := alice |}
            | UserObject => alice
            | Ignored => tt
            end |}, s).

(** A backend that answers everything with the same error. *)
Definition failing (error : AxiosError) : Backend unit :=
  λ A k _ s, (Reject error, s).

(** A backend whose database is down: only [/health] answers. *)
Definition db_down : Backend unit :=
  λ A k request s,
    if decide (url request = js "/health") then up A k request s
    else (Reject (http_error 503 None), s).

Definition browser0 : Browser unit :=
  {| localStorage := {[ js "authToken" := js "old" ]};
     location_href := js "/tickets";
     server := tt;
     sent := [] |}.

Definition page0 {St} (s : St) : Page (Browser unit) St :=
  {| browser := browser0; state := s |}.

Definition listed : useTickets.State :=
  {| useTickets.tickets := [ticket1; ticket2];
     useTickets.loading := false;
     useTickets.error := None |}.

(** The fetch-based client sees JSON it never inspects; here, titles. *)
Definition fetch_up : Fetch.Backend (list JsString) unit :=
  λ _ s, (Some {| Fetch.json_body := Some [js "Printer jam"] |}, s).

Definition fetch_down : Fetch.Backend (list JsString) unit :=
  λ _ s, (None, s).

Definition development : Fetch.ProcessEnv :=
  {| Fetch.NODE_ENV := Some (js "development");
     Fetch.REACT_APP_API_URL := None |}.

Definition network0 : Fetch.Network unit :=
  {| Fetch.server := tt; Fetch.sent := [] |}.

Definition typing : Page (Fetch.Network unit) (App.State (list JsString)) :=
  {| browser := network0;
     state := {| App.tickets := []; App.title := js "New badge" |} |}.

End Sample.

(** ** Sentences of the specification that the code does not satisfy, as they
    are worded *)

Module Claimed.
Section Claims.
Context {Server : Type}.
Variable serve : Backend Server.
Variable VITE_API_URL : option JsString.

(** "a human-readable message is stored in the hook's error state", for a
    failing create. *)
Definition create_failure_sets_error (ticketData : TicketData)
    (p : Page (Browser Server) useTickets.State) : Prop :=
  ∀ error,
    fst (ViteApi.ticketService_createTicket serve VITE_API_URL ticketData
           (browser p)) = Reject error →
    let '(r, p') := useTickets.createTicket serve VITE_API_URL ticketData p in
    (∃ result, r = Resolve result) ∧
    ∃ msg, useTickets.error (state p') = Some msg ∧ truthy msg = true.

Definition is_resolved {E A} (r : Settled E A) : bool :=
  match r with
  | Resolve _ => true
  | Reject _ => false
  end.

Definition status_of (ok : bool) : useApiHealth.HealthStatus :=
  if ok then useApiHealth.healthy else useApiHealth.unhealthy.

(** "the backend status is healthy exactly when the backend probe succeeds
    ... and independently the database status ... ; the run never throws".
    The database probe is the one that follows the backend probe. *)
Definition statuses_are_independent
    (p : Page (Browser Server) useApiHealth.State) : Prop :=
  let '(backend_probe, b1) :=
    ViteApi.healthService_checkBackend serve VITE_API_URL (browser p) in
  let '(database_probe, _) :=
    ViteApi.healthService_checkDatabase serve VITE_API_URL b1 in
  let '(r, p') := useApiHealth.checkHealth serve VITE_API_URL p in
  r = Resolve tt ∧
  useApiHealth.backendStatus (state p') = status_of (is_resolved backend_probe) ∧
  useApiHealth.dbStatus (state p') = status_of (is_resolved database_probe).

End Claims.

Section AppClaims.
Context {Json Server : Type}.
Variable serve : Fetch.Backend Json Server.
Variable env : Fetch.ProcessEnv.
Variable api : App.ApiRevision.

(** "for every title whose trimmed form is non-empty, it issues the create
    request and then resets the title to the empty string and re-fetches
    the list" *)
Definition handleAdd_creates_resets_refetches
    (p : Page (Fetch.Network Server) (App.State Json)) : Prop :=
  trim (App.title (state p)) ≠ [] →
  let p' := snd (App.handleAdd serve env api p) in
  Fetch.sent (browser p')
    = Fetch.sent (browser p)
      ++ [App.create_request env api (App.title (state p));
          App.list_request env api] ∧
  App.title (state p') = [].

End AppClaims.
End Claimed.

(** The request a call through the instance puts on the wire, given what is
    stored: the outcome of the request interceptor on the instance's
    configuration. *)
Definition outgoing {Server} (API_BASE_URL : JsString) (m : Method)
    (path : JsString) (d : Body) (b : Browser Server) : Request :=
  match localStorage b !! js "authToken" with
  | Some t =>
      if truthy t
      then with_Authorization (js "Bearer " ++ t)
             (api_config API_BASE_URL m path d)
      else api_config API_BASE_URL m path d
  | None => api_config API_BASE_URL m path d
  end.

(** ** The router shell, components and pages written by [migrate-to-vite.sh] *)

(** A component that uses a hook sees the hook's state as a part of its
    own. *)
Definition zoom {B S T E A} (get : T → S) (set : S → T → T)
    (m : Async (Page B S) E A) : Async (Page B T) E A :=
  λ p, let '(r, q) := m {| browser := browser p; state := get (state p) |} in
       (r, {| browser := browser q; state := set (state q) (state p) |}).

(** [navigate(path)] of the router: the location becomes [path]. *)
Definition navigate {Server St} (path : JsString)
  : Async (Page (Browser Server) St) AxiosError unit :=
  in_browser (set_location_href path).

Module ViteApp.

Inductive Rendered : Type :=
| Cargando
| Children
| Navigate (to : JsString).

(** [ProtectedRoute] of [src/App.jsx] *)
Definition ProtectedRoute (auth : useAuth.State) : Rendered :=
  if useAuth.loading auth then Cargando
  else if useAuth.isAuthenticated auth then Children
  else Navigate (js "/login").

End ViteApp.

Module Navbar.
Section Component.
Context {Server : Type}.

Definition handleLogout : Async (Page (Browser Server) useAuth.State)
                            AxiosError unit :=
  useAuth.logout >>
  navigate (js "/login").

End Component.
End Navbar.

Module HealthStatus.

Definition getStatusColor (status : useApiHealth.HealthStatus) : JsString :=
  match status with
  | useApiHealth.healthy => js "#4CAF50"
  | useApiHealth.unhealthy => js "#f44336"
  | _ => js "#ff9800"
  end.

Definition getStatusText (status : useApiHealth.HealthStatus) : JsString :=
  match status with
  | useApiHealth.healthy => js "Conectado"
  | useApiHealth.unhealthy => js "Error"
  | _ => js "Verificando..."
  end.

End HealthStatus.

Module Login.

Record State : Type := {
  auth : useAuth.State;
  isLogin : bool;
  formData : UserData;
  loading : bool;
  error : JsString
}.

Definition with_auth (a : useAuth.State) (s : State) : State :=
  {| auth := a; isLogin := isLogin s; formData := formData s;
     loading := loading s; error := error s |}.

Section Page.
Context {Server : Type}.
Variable serve : Backend Server.
Variable VITE_API_URL : option JsString.

Definition setLoading (l : bool)
  : Async (Page (Browser Server) State) AxiosError unit :=
  setState (λ s, {| auth := auth s; isLogin := isLogin s;
                    formData := formData s; loading := l;
                    error := error s |}).

Definition setError (e : JsString)
  : Async (Page (Browser Server) State) AxiosError unit :=
  setState (λ s, {| auth := auth s; isLogin := isLogin s;
                    formData := formData s; loading := loading s;
                    error := e |}).

(** ['Error de conexión'] *)
Definition connection_error : JsString :=
  js "Error de conexi" ++ [243%N] ++ js "n".

Definition handleSubmit : Async (Page (Browser Server) State) AxiosError unit :=
  setLoading true >>
  setError (js "") >>
  try_finally
    (try_catch
       (gets (λ p, (isLogin (state p), formData (state p))) >>= λ form,
        (if fst form
         then zoom auth with_auth
                (useAuth.login serve VITE_API_URL
                   {| cred_username := reg_username (snd form);
                      cred_password := reg_password (snd form) |})
         else zoom auth with_auth
                (useAuth.register serve VITE_API_URL (snd form)))
        >>= λ result,
        match result with
        | Success _ => navigate (js "/")
        | Failure error => setError error
        end)
       (λ err, setError connection_error))
    (setLoading false).

End Page.
End Login.

Module Tickets.

Record State : Type := {
  hook : useTickets.State;
  showCreateForm : bool;
  newTicket : TicketData
}.

Definition with_hook (h : useTickets.State) (s : State) : State :=
  {| hook := h; showCreateForm := showCreateForm s;
     newTicket := newTicket s |}.

(** [{ title: '', description: '', priority: 'MEDIUM' }] *)
Definition blank : TicketData :=
  {| new_title := js ""; new_description := Some (js "");
     new_priority := Some MEDIUM |}.

Inductive Rendered : Type :=
| Cargando
| ErrorMessage (error : JsString)
| NoTickets
| Cards (tickets : list Ticket).

(** What the page shows below its title. *)
Definition render (s : State) : Rendered :=
  if useTickets.loading (hook s) then Cargando
  else match useTickets.error (hook s) with
       | Some e =>
           if truthy e then ErrorMessage e
           else match useTickets.tickets (hook s) with
                | [] => NoTickets
                | l => Cards l
                end
       | None =>
           match useTickets.tickets (hook s) with
           | [] => NoTickets
           | l => Cards l
           end
       end.

Section Page.
Context {Server : Type}.
Variable serve : Backend Server.
Variable VITE_API_URL : option JsString.

Definition setShowCreateForm (b : bool)
  : Async (Page (Browser Server) State) AxiosError unit :=
  setState (λ s, {| hook := hook s; showCreateForm := b;
                    newTicket := newTicket s |}).

Definition setNewTicket (d : TicketData)
  : Async (Page (Browser Server) State) AxiosError unit :=
  setState (λ s, {| hook := hook s; showCreateForm := showCreateForm s;
                    newTicket := d |}).

Definition handleCreateTicket
  : Async (Page (Browser Server) State) AxiosError unit :=
  gets (λ p, newTicket (state p)) >>= λ newTicket,
  zoom hook with_hook
    (useTickets.createTicket serve VITE_API_URL newTicket) >>= λ result,
  match result with
  | Success _ =>
      setShowCreateForm false >>
      setNewTicket blank
  | Failure _ => resolve tt
  end.

(** [confirmed] is the answer [window.confirm] gets from the user. *)
Definition handleDelete (confirmed : bool) (id' : TicketId)
  : Async (Page (Browser Server) State) AxiosError unit :=
  if confirmed
  then zoom hook with_hook
         (useTickets.deleteTicket serve VITE_API_URL id') >>
       resolve tt
  else resolve tt.

End Page.
End Tickets.

Module Dashboard.

Global Instance Status_eq_dec : EqDecision Status.
Proof. solve_decision. Defined.

Record Stats : Type := {
  total : nat;
  open : nat;
  inProgress : nat;
  closed : nat
}.

Definition stats (tickets : list Ticket) : Stats :=
  {| total := length tickets;
     open := length (filter (λ t, status t = OPEN) tickets);
     inProgress := length (filter (λ t, status t = IN_PROGRESS) tickets);
     closed := length (filter (λ t, status t = CLOSED) tickets) |}.

End Dashboard.

(** ** More scripted backends *)

Module Scenario.



Definition stale : Browser unit :=
  {| localStorage := {[ js "authToken" := js "expired" ]};
     location_href := js "/";
     server := tt;
     sent := [] |}.

Definition form : UserData :=
  {| reg_username := js "alice"; reg_email := js "alice@example.org";
     reg_password := js "secret" |}.

Definition login_form : Login.State :=
  {| Login.auth := {| useAuth.user := None; useAuth.loading := false |};
     Login.isLogin := true;
     Login.formData := form;
     Login.loading := false;
     Login.error := js "" |}.

Definition tickets_form : Tickets.State :=
  {| Tickets.hook := Sample.listed;
     Tickets.showCreateForm := true;
     Tickets.newTicket := Sample.draft |}.

End Scenario.

(** * Properties *)

(** ** Strings *)

Example trim_both_ends : trim (js "  a b ") = js "a b".
Proof. reflexivity. Qed.

Example trim_unicode_space : trim [160; 32; 8195; 65279]%N = [].
Proof. reflexivity. Qed.

Example stringify_title :
  JSON_stringify_title (js "Printer jam")
  = [123; 34]%N ++ js "title" ++ [34; 58; 34]%N ++ js "Printer jam"
    ++ [34; 125]%N.
Proof. reflexivity. Qed.

Example stringify_escapes :
  quote_units [34; 10; 1; 55357; 56832; 55357]%N
  = [92; 34; 92; 110]%N ++ js "\u0001" ++ [55357; 56832]%N ++ js "\ud83d".
Proof. reflexivity. Qed.

Lemma trim_empty_iff_falsy (s : JsString) :
  trim s = [] ↔ truthy (trim s) = false.
Proof. by destruct (trim s). Qed.

(** ** The axios client *)

Section ClientProperties.
Context {Server : Type}.
Variable serve : Backend Server.
Variable API_BASE_URL : JsString.

(** The outbound phase sends exactly one request, the one asked for, and
    leaves storage and location alone; the backend decides the outcome. *)
Lemma outbound_sends_one {A} (k : Contract A) m path d (b : Browser Server) :
  ∃ config,
    method config = m ∧ url config = path ∧ body config = d ∧
    baseURL config = API_BASE_URL ∧
    outbound serve API_BASE_URL k m path d b =
      (fst (serve A k config (server b)),
       {| localStorage := localStorage b;
          location_href := location_href b;
          server := snd (serve A k config (server b));
          sent := sent b ++ [config] |}).
Proof.
  unfold outbound, then_, bind, resolve, request_fulfilled, bind,
    localStorage_getItem, gets, dispatch.
  destruct (localStorage b !! js "authToken") as [t|]; [destruct (truthy t)|];
    unfold resolve;
    [exists (with_Authorization (js "Bearer " ++ t)
               (api_config API_BASE_URL m path d))
    |exists (api_config API_BASE_URL m path d)..];
    split_and!; try reflexivity; by destruct (serve _ _ _ _).
Qed.

(** The response interceptors: what the outbound phase resolved passes
    through; what it rejected is rejected again, after the session was
    cleared when the status is 401. *)
Lemma api_request_unfold {A} (k : Contract A) m path d (b : Browser Server) :
  api_request serve API_BASE_URL k m path d b =
    match outbound serve API_BASE_URL k m path d b with
    | (Resolve response, b1) => (Resolve response, b1)
    | (Reject error, b1) =>
        (Reject error,
         if decide (response_status error = Some 401)
         then {| localStorage := delete (js "authToken") (localStorage b1);
                 location_href := js "/login";
                 server := server b1;
                 sent := sent b1 |}
         else b1)
    end.
Proof.
  unfold api_request, then_.
  destruct (outbound _ _ _ _ _ _ _) as [[response|error] b1]; [done|].
  unfold response_rejected, bind.
  by destruct (decide _).
Qed.

Lemma api_request_effects {A} (k : Contract A) m path d (b : Browser Server) :
  ∃ config,
    method config = m ∧ url config = path ∧ body config = d ∧
    sent (snd (api_request serve API_BASE_URL k m path d b))
      = sent b ++ [config] ∧
    localStorage (snd (api_request serve API_BASE_URL k m path d b))
      ⊆ localStorage b.
Proof.
  destruct (outbound_sends_one k m path d b)
    as (config & Hm & Hu & Hb & _ & Hout).
  exists config. rewrite api_request_unfold, Hout.
  destruct (fst _) as [response|error]; simpl; [done|].
  destruct (decide _); simpl; [|done].
  repeat split; try done. apply delete_subseteq.
Qed.

(** C1: an error that carries a response of status 401 removes the stored
    token and sends the page to [/login]; any other error leaves storage and
    location as they were.  Either way the caller's promise is rejected with
    the same error, and a response that is not an error passes through. *)
Theorem response_interceptor_401 {A} (k : Contract A) m path d
    (b : Browser Server) :
  match outbound serve API_BASE_URL k m path d b with
  | (Resolve response, b1) =>
      api_request serve API_BASE_URL k m path d b = (Resolve response, b1)
  | (Reject error, b1) =>
      ∃ b',
        api_request serve API_BASE_URL k m path d b = (Reject error, b') ∧
        server b' = server b1 ∧ sent b' = sent b1 ∧
        if decide (response_status error = Some 401)
        then localStorage b' = delete (js "authToken") (localStorage b) ∧
             localStorage b' !! js "authToken" = None ∧
             location_href b' = js "/login"
        else localStorage b' = localStorage b ∧
             location_href b' = location_href b
  end.
Proof.
  rewrite api_request_unfold.
  destruct (outbound_sends_one k m path d b) as (config & _ & _ & _ & _ & ->).
  destruct (fst _) as [response|error]; [done|].
  eexists; split; [done|].
  destruct (decide _); simpl; split_and!; try done.
  apply lookup_delete_eq.
Qed.

End ClientProperties.

(** C8: in the revision of [api.js] under [src/], [authService.logout]
    removes the token, sends nothing, and returns a promise that is already
    resolved. *)
Theorem minimal_logout_is_local {Server} (b : Browser Server) :
  ∃ b',
    MinimalApi.authService_logout b = (Resolve tt, b') ∧
    localStorage b' = delete (js "authToken") (localStorage b) ∧
    localStorage b' !! js "authToken" = None ∧
    sent b' = sent b ∧ server b' = server b ∧
    location_href b' = location_href b.
Proof.
  eexists; split; [reflexivity|]; simpl; split_and!; try done.
  apply lookup_delete_eq.
Qed.

(** ** The hooks *)

Lemma or_else_truthy (a : option JsString) (b : JsString) :
  truthy b = true → truthy (or_else a b) = true.
Proof.
  intros Hb. destruct a as [s|]; simpl; [|done].
  by destruct (truthy s) eqn:Hs.
Qed.

Lemma filter_keeps_all {A} (P : A → Prop) `{!∀ x, Decision (P x)}
    (l : list A) :
  Forall P l → filter P l = l.
Proof.
  induction 1 as [|x l Hx _ IH]; [done|].
  by rewrite filter_cons_True, IH.
Qed.

(** Expose the control flow of a hook: its try/catch, its awaits and its calls
    into the browser. *)
Ltac hook_steps := unfold try_catch, then_, bind, in_browser.

Section HookProperties.
Context {Server : Type}.
Variable serve : Backend Server.
Variable VITE_API_URL : option JsString.

(** C4: a login the backend accepts stores the token and sets the user, so
    the session is authenticated; a login that fails stores nothing, leaves
    the hook's state (and with it the user) as it was, and resolves with a
    non-empty error string: the server's message, or the fixed one. *)
Theorem login_outcome (credentials : Credentials)
    (p : Page (Browser Server) useAuth.State) :
  match ViteApi.authService_login serve VITE_API_URL credentials (browser p)
  with
  | (Resolve response, _) =>
      ∃ p',
        useAuth.login serve VITE_API_URL credentials p
          = (Resolve (Success tt), p') ∧
        localStorage (browser p') !! js "authToken"
          = Some (token (data response)) ∧
        useAuth.user (state p') = Some (session_user (data response)) ∧
        useAuth.isAuthenticated (state p') = true
  | (Reject error, _) =>
      ∃ msg p',
        useAuth.login serve VITE_API_URL credentials p
          = (Resolve (Failure msg), p') ∧
        msg = or_else (response_data_message error) (js "Error en el login") ∧
        truthy msg = true ∧
        localStorage (browser p') ⊆ localStorage (browser p) ∧
        state p' = state p ∧
        useAuth.isAuthenticated (state p') = useAuth.isAuthenticated (state p)
  end.
Proof.
  pose proof (api_request_effects serve (ViteApi.API_BASE_URL VITE_API_URL)
                SessionObject POST (js "/api/auth/login")
                (CredentialsBody credentials) (browser p))
    as (config & _ & _ & _ & _ & Hsub).
  unfold useAuth.login; hook_steps.
  change (api_request serve (ViteApi.API_BASE_URL VITE_API_URL) SessionObject
            POST (js "/api/auth/login") (CredentialsBody credentials))
    with (ViteApi.authService_login serve VITE_API_URL credentials) in Hsub.
  destruct (ViteApi.authService_login _ _ _ _) as [[[[tok usr]]|error] b1];
    simpl in *.
  - eexists; split; [reflexivity|]; simpl.
    split_and!; try done. apply lookup_insert_eq.
  - eexists _, _; split; [reflexivity|]; simpl.
    split_and!; try done. by apply or_else_truthy.
Qed.

(** C5: a create the backend accepts puts the returned record in front of
    the list, which is otherwise as it was, and the hook has sent one
    request, the POST, and no GET. *)
Theorem create_prepends (ticketData : TicketData)
    (p : Page (Browser Server) useTickets.State) (response : Response Ticket) :
  fst (ViteApi.ticketService_createTicket serve VITE_API_URL ticketData
         (browser p)) = Resolve response →
  ∃ p',
    useTickets.createTicket serve VITE_API_URL ticketData p
      = (Resolve (Success (data response)), p') ∧
    useTickets.tickets (state p')
      = data response :: useTickets.tickets (state p) ∧
    useTickets.loading (state p') = useTickets.loading (state p) ∧
    useTickets.error (state p') = useTickets.error (state p) ∧
    ∃ request,
      sent (browser p') = sent (browser p) ++ [request] ∧
      method request = POST ∧ url request = js "/api/tickets" ∧
      body request = TicketBody ticketData.
Proof.
  intros Hcall.
  pose proof (api_request_effects serve (ViteApi.API_BASE_URL VITE_API_URL)
                TicketObject POST (js "/api/tickets")
                (TicketBody ticketData) (browser p))
    as (config & Hm & Hu & Hb & Hsent & _).
  change (api_request serve (ViteApi.API_BASE_URL VITE_API_URL) TicketObject
            POST (js "/api/tickets") (TicketBody ticketData))
    with (ViteApi.ticketService_createTicket serve VITE_API_URL ticketData)
    in Hsent.
  unfold useTickets.createTicket; hook_steps.
  destruct (ViteApi.ticketService_createTicket _ _ _ _) as [r b1];
    simpl in *; subst r.
  eexists; split; [reflexivity|]; simpl.
  split_and!; try done. by exists config.
Qed.

(** C6: an update the backend accepts puts the returned record at every
    position whose record has the identifier, and leaves every other
    position, the length and the order as they were. *)
Theorem update_replaces (id' : TicketId) (ticketData : TicketData)
    (p : Page (Browser Server) useTickets.State) (response : Response Ticket) :
  fst (ViteApi.ticketService_updateTicket serve VITE_API_URL id' ticketData
         (browser p)) = Resolve response →
  ∃ p',
    useTickets.updateTicket serve VITE_API_URL id' ticketData p
      = (Resolve (Success (data response)), p') ∧
    length (useTickets.tickets (state p'))
      = length (useTickets.tickets (state p)) ∧
    ∀ (i : nat) (ticket : Ticket),
      useTickets.tickets (state p) !! i = Some ticket →
      useTickets.tickets (state p') !! i
        = Some (if decide (id ticket = id') then data response else ticket).
Proof.
  intros Hcall.
  unfold useTickets.updateTicket; hook_steps.
  destruct (ViteApi.ticketService_updateTicket _ _ _ _ _) as [r b1];
    simpl in *; subst r.
  eexists; split; [reflexivity|]; simpl. split.
  - apply length_map.
  - intros i ticket Hi. change map with (@fmap list _) in |- *.
    by rewrite list_lookup_fmap, Hi.
Qed.

(** C7: a delete the backend accepts keeps exactly the records whose
    identifier differs, in their order; when one record had the identifier,
    the list is the old one without it. *)
Theorem delete_filters (id' : TicketId)
    (p : Page (Browser Server) useTickets.State) (response : Response unit) :
  fst (ViteApi.ticketService_deleteTicket serve VITE_API_URL id' (browser p))
    = Resolve response →
  ∃ p',
    useTickets.deleteTicket serve VITE_API_URL id' p
      = (Resolve (Success tt), p') ∧
    useTickets.tickets (state p')
      = filter (λ ticket, id ticket ≠ id') (useTickets.tickets (state p)) ∧
    (∀ ticket, ticket ∈ useTickets.tickets (state p') ↔
               ticket ∈ useTickets.tickets (state p) ∧ id ticket ≠ id') ∧
    useTickets.tickets (state p') `sublist_of` useTickets.tickets (state p) ∧
    (∀ l1 ticket l2,
       useTickets.tickets (state p) = l1 ++ ticket :: l2 →
       id ticket = id' →
       (∀ other, other ∈ l1 ++ l2 → id other ≠ id') →
       useTickets.tickets (state p') = l1 ++ l2).
Proof.
  intros Hcall.
  unfold useTickets.deleteTicket; hook_steps.
  destruct (ViteApi.ticketService_deleteTicket _ _ _ _) as [r b1];
    simpl in *; subst r.
  eexists; split; [reflexivity|]; simpl. split_and!.
  - done.
  - intros ticket. rewrite list_elem_of_filter. tauto.
  - apply sublist_filter.
  - intros l1 ticket l2 -> Hid Hother.
    rewrite filter_app, filter_cons_False by (intros Hne; by apply Hne).
    rewrite <- filter_app. apply filter_keeps_all, Forall_forall. exact Hother.
Qed.

(** C2, as the code has it: a create, update or delete that fails is caught
    in the hook, which resolves with a failure object that holds a non-empty
    message (the server's, or the fixed one of the operation); the hook's
    state, its [error] included, stays as it was. *)
Theorem mutator_failure_is_returned
    (p : Page (Browser Server) useTickets.State) (error : AxiosError) :
  (∀ ticketData,
     fst (ViteApi.ticketService_createTicket serve VITE_API_URL ticketData
            (browser p)) = Reject error →
     let msg := or_else (response_data_message error)
                        (js "Error al crear ticket") in
     fst (useTickets.createTicket serve VITE_API_URL ticketData p)
       = Resolve (Failure msg) ∧
     truthy msg = true ∧
     state (snd (useTickets.createTicket serve VITE_API_URL ticketData p))
       = state p) ∧
  (∀ id' ticketData,
     fst (ViteApi.ticketService_updateTicket serve VITE_API_URL id' ticketData
            (browser p)) = Reject error →
     let msg := or_else (response_data_message error)
                        (js "Error al actualizar ticket") in
     fst (useTickets.updateTicket serve VITE_API_URL id' ticketData p)
       = Resolve (Failure msg) ∧
     truthy msg = true ∧
     state (snd (useTickets.updateTicket serve VITE_API_URL id' ticketData p))
       = state p) ∧
  (∀ id',
     fst (ViteApi.ticketService_deleteTicket serve VITE_API_URL id'
            (browser p)) = Reject error →
     let msg := or_else (response_data_message error)
                        (js "Error al eliminar ticket") in
     fst (useTickets.deleteTicket serve VITE_API_URL id' p)
       = Resolve (Failure msg) ∧
     truthy msg = true ∧
     state (snd (useTickets.deleteTicket serve VITE_API_URL id' p))
       = state p).
Proof.
  split_and!.
  - intros ticketData.
    unfold useTickets.createTicket; hook_steps.
    destruct (ViteApi.ticketService_createTicket _ _ _ _) as [r b1].
    simpl. intros ->. simpl. split_and!; try done. by apply or_else_truthy.
  - intros id' ticketData.
    unfold useTickets.updateTicket; hook_steps.
    destruct (ViteApi.ticketService_updateTicket _ _ _ _ _) as [r b1].
    simpl. intros ->. simpl. split_and!; try done. by apply or_else_truthy.
  - intros id'.
    unfold useTickets.deleteTicket; hook_steps.
    destruct (ViteApi.ticketService_deleteTicket _ _ _ _) as [r b1].
    simpl. intros ->. simpl. split_and!; try done. by apply or_else_truthy.
Qed.

(** C3, as the code has it: the health check never throws; both statuses
    become healthy when the backend probe and then the database probe
    succeed; when the backend probe fails the database is not probed and
    both become unhealthy; when the database probe fails both become
    unhealthy. *)
Theorem checkHealth_outcome (p : Page (Browser Server) useApiHealth.State) :
  match ViteApi.healthService_checkBackend serve VITE_API_URL (browser p) with
  | (Reject _, b1) =>
      useApiHealth.checkHealth serve VITE_API_URL p
        = (Resolve tt,
           {| browser := b1;
              state := {| useApiHealth.backendStatus := useApiHealth.unhealthy;
                          useApiHealth.dbStatus := useApiHealth.unhealthy |} |})
  | (Resolve _, b1) =>
      match ViteApi.healthService_checkDatabase serve VITE_API_URL b1 with
      | (Resolve _, b2) =>
          useApiHealth.checkHealth serve VITE_API_URL p
            = (Resolve tt,
               {| browser := b2;
                  state := {| useApiHealth.backendStatus := useApiHealth.healthy;
                              useApiHealth.dbStatus := useApiHealth.healthy |} |})
      | (Reject _, b2) =>
          useApiHealth.checkHealth serve VITE_API_URL p
            = (Resolve tt,
               {| browser := b2;
                  state := {| useApiHealth.backendStatus := useApiHealth.unhealthy;
                              useApiHealth.dbStatus := useApiHealth.unhealthy |} |})
      end
  end.
Proof.
  unfold useApiHealth.checkHealth; hook_steps.
  destruct (ViteApi.healthService_checkBackend _ _ _) as [[r1|e1] b1];
    simpl; [|done].
  by destruct (ViteApi.healthService_checkDatabase _ _ _) as [[r2|e2] b2].
Qed.

End HookProperties.

(** Examples: a rejected login with status 401 ends on the login page with no
    token; a rejected health probe with status 503 keeps the token. *)
Example login_401_clears_session :
  let '(r, p) :=
    useAuth.login (Sample.failing (Sample.http_error 401 (Some (js "bad"))))
      None Sample.credentials (Sample.page0 useAuth.initial) in
  r = Resolve (Failure (js "bad")) ∧
  localStorage (browser p) !! js "authToken" = None ∧
  location_href (browser p) = js "/login" ∧
  useAuth.isAuthenticated (state p) = false.
Proof. vm_compute. done. Qed.

Example probe_503_keeps_session :
  let '(r, b) :=
    ViteApi.healthService_checkDatabase Sample.db_down None Sample.browser0 in
  r = Reject (Sample.http_error 503 None) ∧
  localStorage b !! js "authToken" = Some (js "old") ∧
  location_href b = js "/tickets".
Proof. vm_compute. done. Qed.

Example login_accepted :
  let '(r, p) :=
    useAuth.login Sample.up None Sample.credentials
      (Sample.page0 useAuth.initial) in
  r = Resolve (Success tt) ∧
  localStorage (browser p) !! js "authToken" = Some (js "t0k3n") ∧
  useAuth.isAuthenticated (state p) = true.
Proof. vm_compute. done. Qed.

Lemma create_prepends_witness :
  fst (ViteApi.ticketService_createTicket Sample.up None Sample.draft
         (browser (Sample.page0 Sample.listed)))
    = Resolve {| data := Sample.ticket3 |} ∧
  ∃ p',
    useTickets.createTicket Sample.up None Sample.draft
      (Sample.page0 Sample.listed)
      = (Resolve (Success Sample.ticket3), p') ∧
    useTickets.tickets (state p')
      = [Sample.ticket3; Sample.ticket1; Sample.ticket2].
Proof.
  split; [vm_compute; reflexivity|].
  destruct (create_prepends Sample.up None Sample.draft
              (Sample.page0 Sample.listed) {| data := Sample.ticket3 |})
    as (p' & Hrun & Htickets & _).
  - vm_compute; reflexivity.
  - exists p'. split; [exact Hrun | exact Htickets].
Defined.

Lemma update_replaces_witness :
  fst (ViteApi.ticketService_updateTicket Sample.closing None (IdNum 2) Sample.draft
         (browser (Sample.page0 Sample.listed)))
    = Resolve {| data := Sample.ticket2' |} ∧
  ∃ p',
    useTickets.updateTicket Sample.closing None (IdNum 2) Sample.draft
      (Sample.page0 Sample.listed)
      = (Resolve (Success Sample.ticket2'), p') ∧
    useTickets.tickets (state p') !! 0%nat = Some Sample.ticket1 ∧
    useTickets.tickets (state p') !! 1%nat = Some Sample.ticket2'.
Proof.
  split; [vm_compute; reflexivity|].
  destruct (update_replaces Sample.closing None (IdNum 2) Sample.draft
              (Sample.page0 Sample.listed) {| data := Sample.ticket2' |})
    as (p' & Hrun & _ & Hat).
  - vm_compute; reflexivity.
  - exists p'. split_and!; [exact Hrun|..].
    + exact (Hat 0%nat Sample.ticket1 eq_refl).
    + exact (Hat 1%nat Sample.ticket2 eq_refl).
Defined.

Lemma delete_filters_witness :
  fst (ViteApi.ticketService_deleteTicket Sample.up None (IdNum 1)
         (browser (Sample.page0 Sample.listed)))
    = Resolve {| data := tt |} ∧
  ∃ p',
    useTickets.deleteTicket Sample.up None (IdNum 1)
      (Sample.page0 Sample.listed)
      = (Resolve (Success tt), p') ∧
    useTickets.tickets (state p') = [Sample.ticket2].
Proof.
  split; [vm_compute; reflexivity|].
  destruct (delete_filters Sample.up None (IdNum 1)
              (Sample.page0 Sample.listed) {| data := tt |})
    as (p' & Hrun & Htickets & _).
  - vm_compute; reflexivity.
  - exists p'. split; [exact Hrun|]. rewrite Htickets. reflexivity.
Defined.

Lemma mutator_failure_is_returned_witness :
  let error := Sample.http_error 422 (Some (js "title is required")) in
  let p := Sample.page0 Sample.listed in
  fst (ViteApi.ticketService_createTicket (Sample.failing error) None
         Sample.draft (browser p)) = Reject error ∧
  fst (useTickets.createTicket (Sample.failing error) None Sample.draft p)
    = Resolve (Failure (js "title is required")) ∧
  fst (useTickets.updateTicket (Sample.failing error) None (IdNum 2)
         Sample.draft p)
    = Resolve (Failure (js "title is required")) ∧
  fst (useTickets.deleteTicket (Sample.failing error) None (IdNum 2) p)
    = Resolve (Failure (js "title is required")).
Proof.
  intros error p.
  destruct (mutator_failure_is_returned (Sample.failing error) None p error)
    as (Hcreate & Hupdate & Hdelete).
  split_and!.
  - vm_compute; reflexivity.
  - exact (proj1 (Hcreate Sample.draft eq_refl)).
  - exact (proj1 (Hupdate (IdNum 2) Sample.draft eq_refl)).
  - exact (proj1 (Hdelete (IdNum 2) eq_refl)).
Defined.

(** C2 as worded fails: after a create the network could not deliver, the
    hook's [error] is still [null]. *)
Lemma create_failure_leaves_error_null :
  ¬ Claimed.create_failure_sets_error
      (Sample.failing {| response := None |}) None Sample.draft
      (Sample.page0 Sample.listed).
Proof.
  intros Hclaim.
  specialize (Hclaim {| response := None |} eq_refl).
  vm_compute in Hclaim.
  destruct Hclaim as (_ & msg & Hmsg & _). discriminate Hmsg.
Qed.

(** C3 as worded fails: with the backend up and the database down, the
    backend probe succeeds and the backend status ends unhealthy. *)
Lemma database_down_marks_backend_unhealthy :
  ¬ Claimed.statuses_are_independent Sample.db_down None
      (Sample.page0 useApiHealth.initial).
Proof.
  unfold Claimed.statuses_are_independent.
  vm_compute. intros (_ & Hbackend & _). discriminate Hbackend.
Qed.

(** ** The fetch-based client and the minimal component *)

Section FetchProperties.
Context {Json Server : Type}.
Variable serve : Fetch.Backend Json Server.
Variable env : Fetch.ProcessEnv.

(** One exchange: the request is recorded, the backend answers, and the
    promise settles with the parsed body, or rejects when there is no
    response or the body is not JSON. *)
Lemma exchange_run (request : Fetch.Request) (n : Fetch.Network Server) :
  Fetch.exchange serve request n =
    (match fst (serve request (Fetch.server n)) with
     | Some res =>
         match Fetch.json_body res with
         | Some v => Resolve v
         | None => Reject Fetch.SyntaxError
         end
     | None => Reject Fetch.NetworkError
     end,
     {| Fetch.server := snd (serve request (Fetch.server n));
        Fetch.sent := Fetch.sent n ++ [request] |}).
Proof.
  unfold Fetch.exchange, bind, Fetch.fetch, Fetch.json.
  destruct request as [resource init]; simpl.
  destruct (serve _ _) as [[res|] s]; simpl; [|done].
  by destruct (Fetch.json_body res).
Qed.

(** C9: outside production the two revisions have the same base URL, the
    one from [REACT_APP_API_URL] or else the localhost default, and so the
    same [getTickets] and [createTicket]: each sends the one request, to
    [/tickets] under that base, and for a create with method POST, the JSON
    content type and the title as a JSON object, and gives back the parsed
    body of the response. *)
Theorem revisions_agree_outside_production :
  Fetch.NODE_ENV env ≠ Some (js "production") →
  let base :=
    or_else (Fetch.REACT_APP_API_URL env) (js "http://localhost:3000") in
  ApiV1.API_BASE_URL env = base ∧
  ApiV2.API_BASE_URL env = base ∧
  ApiV1.getTickets serve env = ApiV2.getTickets serve env ∧
  ApiV1.createTicket serve env = ApiV2.createTicket serve env ∧
  ApiV2.getTickets serve env
    = Fetch.exchange serve (Fetch.list_request base) ∧
  ∀ title,
    ApiV2.createTicket serve env title
      = Fetch.exchange serve (Fetch.create_request base title).
Proof.
  intros Hdev base.
  assert (ApiV2.API_BASE_URL env = base) as H2.
  { unfold ApiV2.API_BASE_URL. by destruct (decide _). }
  unfold ApiV1.getTickets, ApiV2.getTickets, ApiV1.createTicket,
    ApiV2.createTicket.
  rewrite H2. by split_and!.
Qed.

Variable api : App.ApiRevision.

Lemma getTickets_exchange :
  App.getTickets serve env api
    = Fetch.exchange serve (App.list_request env api).
Proof. by destruct api. Qed.

Lemma createTicket_exchange (title : JsString) :
  App.createTicket serve env api title
    = Fetch.exchange serve (App.create_request env api title).
Proof. by destruct api. Qed.

Lemma handleAdd_reads_title
    (p : Page (Fetch.Network Server) (App.State Json)) :
  App.handleAdd serve env api p =
    (if negb (truthy (trim (App.title (state p)))) then resolve tt
     else in_browser (App.createTicket serve env api (App.title (state p))) >>
          App.setTitle (js "") >>
          detached (App.fetchTickets serve env api)) p.
Proof. reflexivity. Qed.

(** C10, as the code has it: with a title that trims to nothing,
    [handleAdd] returns at once, sends nothing and changes nothing.
    Otherwise it sends the create request; when that call resolves, the
    title becomes empty and the list request goes out next, its result
    replacing the list if it resolves; when the create call rejects,
    [handleAdd] rejects with it, the state is as it was, and no list request
    goes out. *)
Theorem handleAdd_outcome
    (p : Page (Fetch.Network Server) (App.State Json)) :
  let title := App.title (state p) in
  match trim title with
  | [] => App.handleAdd serve env api p = (Resolve tt, p)
  | _ :: _ =>
      match App.createTicket serve env api title (browser p) with
      | (Reject e, n1) =>
          App.handleAdd serve env api p
            = (Reject e, {| browser := n1; state := state p |}) ∧
          Fetch.sent n1
            = Fetch.sent (browser p) ++ [App.create_request env api title]
      | (Resolve _, n1) =>
          ∃ p',
            App.handleAdd serve env api p = (Resolve tt, p') ∧
            App.title (state p') = [] ∧
            Fetch.sent (browser p')
              = Fetch.sent (browser p)
                ++ [App.create_request env api title;
                    App.list_request env api] ∧
            App.tickets (state p')
              = match fst (App.getTickets serve env api n1) with
                | Resolve data => data
                | Reject _ => App.tickets (state p)
                end
      end
  end.
Proof.
  intros title; subst title.
  rewrite handleAdd_reads_title.
  destruct (trim (App.title (state p))) as [|c rest]; simpl.
  { by destruct p. }
  unfold bind, in_browser, detached, App.fetchTickets, bind, in_browser.
  rewrite getTickets_exchange, createTicket_exchange, !exchange_run.
  destruct (match fst (serve (App.create_request env api _) _) with
            | Some _ => _ | None => _ end) as [created|e]; simpl; [|done].
  eexists; split; [reflexivity|].
  rewrite exchange_run; simpl.
  destruct (match fst (serve (App.list_request env api) _) with
            | Some _ => _ | None => _ end) as [listed|e]; simpl;
    by rewrite <- app_assoc.
Qed.

End FetchProperties.

Lemma revisions_agree_outside_production_witness :
  Fetch.NODE_ENV Sample.development ≠ Some (js "production") ∧
  ApiV1.createTicket Sample.fetch_up Sample.development (js "New badge")
      Sample.network0
    = ApiV2.createTicket Sample.fetch_up Sample.development (js "New badge")
        Sample.network0 ∧
  ApiV2.API_BASE_URL Sample.development = js "http://localhost:3000".
Proof.
  assert (Fetch.NODE_ENV Sample.development ≠ Some (js "production")) as Hdev.
  { vm_compute. discriminate. }
  split; [exact Hdev|].
  destruct (revisions_agree_outside_production Sample.fetch_up
              Sample.development Hdev)
    as (_ & Hbase & _ & Hcreate & _).
  split; [by rewrite Hcreate | exact Hbase].
Defined.

(** C10 as worded fails: when the create request gets no response, the
    title is not reset and the list is not fetched again. *)
Lemma handleAdd_keeps_title_when_create_rejects :
  ¬ Claimed.handleAdd_creates_resets_refetches Sample.fetch_down
      Sample.development App.V1 Sample.typing.
Proof.
  intros Hclaim.
  assert (trim (App.title (state Sample.typing)) ≠ []) as Htitle.
  { vm_compute. discriminate. }
  destruct (Hclaim Htitle) as [_ Hreset].
  vm_compute in Hreset. discriminate Hreset.
Qed.

(** * Further properties of the code *)

Arguments js : simpl never.

(** ** The axios instance and the base URLs *)

Section InstanceProperties.
Context {Server : Type}.
Variable serve : Backend Server.
Variable API_BASE_URL : JsString.

(** A call through the instance, step by step. *)
Lemma api_request_run {A} (k : Contract A) m path d (b : Browser Server) :
  api_request serve API_BASE_URL k m path d b =
    let config := outgoing API_BASE_URL m path d b in
    let after :=
      {| localStorage := localStorage b;
         location_href := location_href b;
         server := snd (serve A k config (server b));
         sent := sent b ++ [config] |} in
    match fst (serve A k config (server b)) with
    | Resolve response => (Resolve response, after)
    | Reject error =>
        (Reject error,
         if decide (response_status error = Some 401)
         then {| localStorage := delete (js "authToken") (localStorage b);
                 location_href := js "/login";
                 server := server after;
                 sent := sent after |}
         else after)
    end.
Proof.
  rewrite api_request_unfold.
  unfold outbound, then_, bind, resolve, request_fulfilled, bind,
    localStorage_getItem, gets, dispatch, outgoing.
  destruct (localStorage b !! js "authToken") as [t|]; [destruct (truthy t)|];
    unfold resolve; by destruct (serve _ _ _ _) as [[response|error] s].
Qed.

Lemma outgoing_fields (m : Method) (path : JsString) (d : Body)
    (b : Browser Server) :
  method (outgoing API_BASE_URL m path d b) = m ∧
  url (outgoing API_BASE_URL m path d b) = path ∧
  body (outgoing API_BASE_URL m path d b) = d ∧
  baseURL (outgoing API_BASE_URL m path d b) = API_BASE_URL ∧
  timeout (outgoing API_BASE_URL m path d b) = 15000.
Proof.
  unfold outgoing.
  destruct (localStorage b !! js "authToken") as [t|]; [|done].
  by destruct (truthy t).
Qed.


(** X2: a call through the instance sends one request and no more (no
    retry), with the method, path and body asked for, the instance's base
    URL and a timeout of 15000 ms; and when the call is fulfilled, storage
    and location are as before. *)
Theorem one_request_per_call {A} (k : Contract A) m path d
    (b : Browser Server) :
  ∃ config,
    sent (snd (api_request serve API_BASE_URL k m path d b))
      = sent b ++ [config] ∧
    method config = m ∧ url config = path ∧ body config = d ∧
    baseURL config = API_BASE_URL ∧ timeout config = 15000 ∧
    match fst (api_request serve API_BASE_URL k m path d b) with
    | Resolve _ =>
        localStorage (snd (api_request serve API_BASE_URL k m path d b))
          = localStorage b ∧
        location_href (snd (api_request serve API_BASE_URL k m path d b))
          = location_href b
    | Reject _ => True
    end.
Proof.
  destruct (outgoing_fields m path d b) as (Hm & Hu & Hb & Hbase & Htime).
  rewrite api_request_run. cbv zeta.
  exists (outgoing API_BASE_URL m path d b).
  split_and!; try done.
  - destruct (fst _) as [response|error]; [reflexivity|].
    destruct (decide _); reflexivity.
  - destruct (fst (serve _ _ _ _)) as [response|error]; cbn; done.
Qed.

End InstanceProperties.

(** X3: no revision ever has an empty base URL: an environment variable that
    is unset or set to the empty string gives the revision's default. *)
Theorem base_url_defaults (value : option JsString) (env : Fetch.ProcessEnv) :
  truthy (MinimalApi.API_BASE_URL value) = true ∧
  truthy (ViteApi.API_BASE_URL value) = true ∧
  truthy (ApiV1.API_BASE_URL env) = true ∧
  truthy (ApiV2.API_BASE_URL env) = true ∧
  (value = None ∨ value = Some (js "") →
   MinimalApi.API_BASE_URL value = js "http://backend-service:80" ∧
   ViteApi.API_BASE_URL value = js "http://localhost:8080") ∧
  (Fetch.REACT_APP_API_URL env = None ∨
   Fetch.REACT_APP_API_URL env = Some (js "") →
   ApiV1.API_BASE_URL env = js "http://localhost:3000").
Proof.
  split_and!; try by apply or_else_truthy.
  - unfold ApiV2.API_BASE_URL. destruct (decide _); [done|].
    by apply or_else_truthy.
  - by intros [-> | ->].
  - unfold ApiV1.API_BASE_URL. by intros [-> | ->].
Qed.

Lemma base_url_defaults_witness :
  MinimalApi.API_BASE_URL (Some (js "")) = js "http://backend-service:80" ∧
  ApiV1.API_BASE_URL
    {| Fetch.NODE_ENV := None; Fetch.REACT_APP_API_URL := Some (js "") |}
    = js "http://localhost:3000".
Proof.
  destruct (base_url_defaults (Some (js ""))
              {| Fetch.NODE_ENV := None;
                 Fetch.REACT_APP_API_URL := Some (js "") |})
    as (_ & _ & _ & _ & Haxios & Hfetch).
  split; [exact (proj1 (Haxios (or_intror eq_refl))) |
          exact (Hfetch (or_intror eq_refl))].
Defined.

(** X4: in a production build the second fetch revision ignores
    [REACT_APP_API_URL]: the list goes to [/api/tickets] and so does a create,
    while the first revision still uses the variable or the localhost
    default. *)
Theorem production_goes_through_proxy {Json Server}
    (serve : Fetch.Backend Json Server) (env : Fetch.ProcessEnv) :
  Fetch.NODE_ENV env = Some (js "production") →
  ApiV2.getTickets serve env
    = Fetch.exchange serve (Fetch.list_request (js "/api")) ∧
  (∀ title,
     ApiV2.createTicket serve env title
       = Fetch.exchange serve (Fetch.create_request (js "/api") title)) ∧
  (∀ n, Fetch.sent (snd (ApiV2.getTickets serve env n))
        = Fetch.sent n ++ [{| Fetch.resource := js "/api/tickets";
                              Fetch.init := None |}]) ∧
  ∀ n, Fetch.sent (snd (ApiV1.getTickets serve env n))
       = Fetch.sent n
         ++ [Fetch.list_request
               (or_else (Fetch.REACT_APP_API_URL env)
                        (js "http://localhost:3000"))].
Proof.
  intros Hprod.
  assert (ApiV2.API_BASE_URL env = js "/api") as Hbase.
  { unfold ApiV2.API_BASE_URL. by destruct (decide _). }
  unfold ApiV2.getTickets, ApiV2.createTicket. rewrite Hbase.
  split_and!; try done.
  - intros n.
    change (Fetch.fetch serve (js "/api" ++ js "/tickets") None >>= _)
      with (Fetch.exchange serve (Fetch.list_request (js "/api"))).
    by rewrite exchange_run.
  - intros n.
    change (ApiV1.getTickets serve env)
      with (Fetch.exchange serve
              (Fetch.list_request (ApiV1.API_BASE_URL env))).
    by rewrite exchange_run.
Qed.

Lemma production_goes_through_proxy_witness :
  let env := {| Fetch.NODE_ENV := Some (js "production");
                Fetch.REACT_APP_API_URL := Some (js "http://api.example") |} in
  Fetch.NODE_ENV env = Some (js "production") ∧
  Fetch.sent (snd (ApiV2.getTickets Sample.fetch_up env Sample.network0))
    = [{| Fetch.resource := js "/api/tickets"; Fetch.init := None |}] ∧
  Fetch.sent (snd (ApiV1.getTickets Sample.fetch_up env Sample.network0))
    = [{| Fetch.resource := js "http://api.example/tickets";
          Fetch.init := None |}].
Proof.
  intros env.
  destruct (production_goes_through_proxy Sample.fetch_up env eq_refl)
    as (_ & _ & H2 & H1).
  split_and!; [reflexivity | exact (H2 Sample.network0) |
               exact (H1 Sample.network0)].
Defined.

(** ** The session: [useAuth], the route guard and the navigation bar *)

Section SessionProperties.
Context {Server : Type}.
Variable serve : Backend Server.
Variable VITE_API_URL : option JsString.

(** What a call through the instance does to storage and location. *)
Lemma api_request_session {A} (k : Contract A) m path d (b : Browser Server) :
  let '(r, b1) := api_request serve (ViteApi.API_BASE_URL VITE_API_URL)
                    k m path d b in
  sent b1 = sent b
            ++ [outgoing (ViteApi.API_BASE_URL VITE_API_URL) m path d b] ∧
  match r with
  | Resolve _ =>
      localStorage b1 = localStorage b ∧ location_href b1 = location_href b
  | Reject error =>
      if decide (response_status error = Some 401)
      then localStorage b1 = delete (js "authToken") (localStorage b) ∧
           location_href b1 = js "/login"
      else localStorage b1 = localStorage b ∧
           location_href b1 = location_href b
  end.
Proof.
  rewrite api_request_run. cbv zeta.
  destruct (fst (serve _ _ _ _)) as [response|error]; [done|].
  by destruct (decide _).
Qed.

Lemma login_never_rejects (credentials : Credentials)
    (p : Page (Browser Server) useAuth.State) :
  ∃ result, fst (useAuth.login serve VITE_API_URL credentials p)
            = Resolve result.
Proof.
  unfold useAuth.login; hook_steps.
  destruct (ViteApi.authService_login _ _ _ _) as [[[[tok usr]]|error] b1];
    by eexists.
Qed.

Lemma register_never_rejects (userData : UserData)
    (p : Page (Browser Server) useAuth.State) :
  ∃ result, fst (useAuth.register serve VITE_API_URL userData p)
            = Resolve result.
Proof.
  unfold useAuth.register; hook_steps.
  destruct (ViteApi.authService_register _ _ _ _) as [[[[tok usr]]|error] b1];
    by eexists.
Qed.

(** X5: [checkAuth] never throws and always ends with [loading] false.
    With no stored token, or an empty one, it sends nothing and leaves the
    user as it was.  With a token it asks the backend once: an accepted
    token sets the user to the response and keeps the token; a refused one
    removes the token and leaves the user as it was. *)
Theorem checkAuth_outcome (p : Page (Browser Server) useAuth.State) :
  let settled u := {| useAuth.user := u; useAuth.loading := false |} in
  let nothing_sent :=
    useAuth.checkAuth serve VITE_API_URL p
      = (Resolve tt,
         {| browser := browser p;
            state := settled (useAuth.user (state p)) |}) in
  match localStorage (browser p) !! js "authToken" with
  | Some t =>
      if truthy t then
        match ViteApi.authService_verifyToken serve VITE_API_URL (browser p)
        with
        | (Resolve response, b1) =>
            useAuth.checkAuth serve VITE_API_URL p
              = (Resolve tt,
                 {| browser := b1; state := settled (Some (data response)) |})
            ∧ localStorage b1 !! js "authToken" = Some t
        | (Reject error, b1) =>
            ∃ p',
              useAuth.checkAuth serve VITE_API_URL p = (Resolve tt, p') ∧
              localStorage (browser p')
                = delete (js "authToken") (localStorage (browser p)) ∧
              state p' = settled (useAuth.user (state p)) ∧
              sent (browser p') = sent b1
        end
      else nothing_sent
  | None => nothing_sent
  end.
Proof.
  intros settled nothing_sent; subst settled nothing_sent.
  pose proof (api_request_session UserObject GET (js "/api/auth/verify")
                NoBody (browser p)) as Hcall.
  change (api_request serve (ViteApi.API_BASE_URL VITE_API_URL) UserObject
            GET (js "/api/auth/verify") NoBody)
    with (ViteApi.authService_verifyToken serve VITE_API_URL) in Hcall.
  unfold useAuth.checkAuth, try_finally, try_catch, then_, bind, in_browser,
    localStorage_getItem, gets.
  destruct (localStorage (browser p) !! js "authToken") as [t|] eqn:Htoken;
    cbn; [|done].
  destruct (truthy t); cbn; [|done].
  destruct (ViteApi.authService_verifyToken _ _ _) as [[response|error] b1];
    cbn.
  - destruct Hcall as (_ & -> & _). done.
  - eexists; split; [reflexivity|]; cbn. split_and!; try done.
    destruct Hcall as (_ & Hcase). destruct (decide _).
    + destruct Hcase as (-> & _). apply delete_delete_eq.
    + by destruct Hcase as (-> & _).
Qed.

(** X6: on mount the route guard shows the loading notice; once [checkAuth]
    is done it never does, and it lets the page through exactly when a
    non-empty stored token was accepted by the backend; otherwise it sends
    the visitor to [/login]. *)
Theorem guard_after_checkAuth (b : Browser Server) :
  let mounted := {| browser := b; state := useAuth.initial |} in
  ViteApp.ProtectedRoute (state mounted) = ViteApp.Cargando ∧
  ViteApp.ProtectedRoute
    (state (snd (useAuth.checkAuth serve VITE_API_URL mounted)))
  = match localStorage b !! js "authToken" with
    | Some t =>
        if truthy t then
          match fst (ViteApi.authService_verifyToken serve VITE_API_URL b) with
          | Resolve _ => ViteApp.Children
          | Reject _ => ViteApp.Navigate (js "/login")
          end
        else ViteApp.Navigate (js "/login")
    | None => ViteApp.Navigate (js "/login")
    end.
Proof.
  intros mounted; subst mounted. split; [reflexivity|].
  unfold useAuth.checkAuth, try_finally, try_catch, then_, bind, in_browser,
    localStorage_getItem, gets. cbn.
  destruct (localStorage b !! js "authToken") as [t|]; cbn; [|done].
  destruct (truthy t); cbn; [|done].
  by destruct (ViteApi.authService_verifyToken _ _ _) as [[response|error] b1].
Qed.

(** X7: a registration the backend accepts stores the token and sets the
    user; one that fails stores nothing, leaves the hook's state as it was
    and resolves with the server's message or ['Error en el registro']. *)
Theorem register_outcome (userData : UserData)
    (p : Page (Browser Server) useAuth.State) :
  match ViteApi.authService_register serve VITE_API_URL userData (browser p)
  with
  | (Resolve response, _) =>
      ∃ p',
        useAuth.register serve VITE_API_URL userData p
          = (Resolve (Success tt), p') ∧
        localStorage (browser p') !! js "authToken"
          = Some (token (data response)) ∧
        useAuth.user (state p') = Some (session_user (data response)) ∧
        useAuth.isAuthenticated (state p') = true
  | (Reject error, _) =>
      ∃ msg p',
        useAuth.register serve VITE_API_URL userData p
          = (Resolve (Failure msg), p') ∧
        msg = or_else (response_data_message error)
                      (js "Error en el registro") ∧
        truthy msg = true ∧
        localStorage (browser p') ⊆ localStorage (browser p) ∧
        state p' = state p
  end.
Proof.
  pose proof (api_request_session SessionObject POST (js "/api/auth/register")
                (UserBody userData) (browser p)) as Hcall.
  change (api_request serve (ViteApi.API_BASE_URL VITE_API_URL) SessionObject
            POST (js "/api/auth/register") (UserBody userData))
    with (ViteApi.authService_register serve VITE_API_URL userData) in Hcall.
  unfold useAuth.register; hook_steps.
  destruct (ViteApi.authService_register _ _ _ _) as [[[[tok usr]]|error] b1];
    cbn in *.
  - eexists; split; [reflexivity|]; cbn.
    split_and!; try done. apply lookup_insert_eq.
  - eexists _, _; split; [reflexivity|]; cbn.
    split_and!; try done; [by apply or_else_truthy|].
    destruct Hcall as (_ & Hcase). destruct (decide _).
    + destruct Hcase as (-> & _). apply delete_subseteq.
    + by destruct Hcase as (-> & _).
Qed.

(** X8: [logout] of the hook never throws, removes the token, sets the user
    to null and sends nothing; the route guard then no longer lets a page
    through. *)
Theorem logout_clears_session (p : Page (Browser Server) useAuth.State) :
  ∃ p',
    useAuth.logout p = (Resolve tt, p') ∧
    localStorage (browser p')
      = delete (js "authToken") (localStorage (browser p)) ∧
    localStorage (browser p') !! js "authToken" = None ∧
    sent (browser p') = sent (browser p) ∧
    location_href (browser p') = location_href (browser p) ∧
    useAuth.user (state p') = None ∧
    useAuth.isAuthenticated (state p') = false ∧
    ViteApp.ProtectedRoute (state p') ≠ ViteApp.Children.
Proof.
  eexists; split; [reflexivity|]; cbn. split_and!; try done.
  - apply lookup_delete_eq.
  - unfold ViteApp.ProtectedRoute; cbn. by destruct (useAuth.loading _).
Qed.

(** X9: [handleLogout] of the navigation bar clears the session as [logout]
    does and ends on [/login], without a request. *)
Theorem handleLogout_outcome (p : Page (Browser Server) useAuth.State) :
  ∃ p',
    Navbar.handleLogout p = (Resolve tt, p') ∧
    localStorage (browser p') !! js "authToken" = None ∧
    location_href (browser p') = js "/login" ∧
    sent (browser p') = sent (browser p) ∧
    useAuth.isAuthenticated (state p') = false.
Proof.
  eexists; split; [reflexivity|]; cbn. split_and!; try done.
  apply lookup_delete_eq.
Qed.


End SessionProperties.


(** ** The ticket list: [useTickets] *)

Section TicketListProperties.
Context {Server : Type}.
Variable serve : Backend Server.
Variable VITE_API_URL : option JsString.

(** X11: [fetchTickets] never throws and always ends with [loading] false.
    When the backend answers, the list is replaced by the answer and the
    error is cleared; when it does not, the list is kept and the error is
    the server's message or ['Error al cargar tickets']. *)
Theorem fetchTickets_outcome (p : Page (Browser Server) useTickets.State) :
  match ViteApi.ticketService_getAllTickets serve VITE_API_URL (browser p) with
  | (Resolve response, b1) =>
      useTickets.fetchTickets serve VITE_API_URL p
        = (Resolve tt,
           {| browser := b1;
              state := {| useTickets.tickets := data response;
                          useTickets.loading := false;
                          useTickets.error := None |} |})
  | (Reject err, b1) =>
      useTickets.fetchTickets serve VITE_API_URL p
        = (Resolve tt,
           {| browser := b1;
              state := {| useTickets.tickets := useTickets.tickets (state p);
                          useTickets.loading := false;
                          useTickets.error :=
                            Some (or_else (response_data_message err)
                                    (js "Error al cargar tickets")) |} |})
  end.
Proof.
  unfold useTickets.fetchTickets, try_finally; hook_steps. cbn.
  by destruct (ViteApi.ticketService_getAllTickets _ _ _)
    as [[response|err] b1].
Qed.

(** X12: when the list request is refused with status 401, [fetchTickets]
    still only records an error in the hook, but the session is gone: the
    token is removed and the location is [/login]. *)
Theorem fetchTickets_unauthorized (p : Page (Browser Server) useTickets.State)
    (err : AxiosError) :
  fst (ViteApi.ticketService_getAllTickets serve VITE_API_URL (browser p))
    = Reject err →
  response_status err = Some 401 →
  ∃ p',
    useTickets.fetchTickets serve VITE_API_URL p = (Resolve tt, p') ∧
    localStorage (browser p') !! js "authToken" = None ∧
    location_href (browser p') = js "/login" ∧
    useTickets.tickets (state p') = useTickets.tickets (state p) ∧
    useTickets.error (state p')
      = Some (or_else (response_data_message err)
                (js "Error al cargar tickets")).
Proof.
  intros Hcall Hstatus.
  pose proof (api_request_session serve VITE_API_URL TicketArray GET
                (js "/api/tickets") NoBody (browser p)) as Hrun.
  change (api_request serve (ViteApi.API_BASE_URL VITE_API_URL) TicketArray
            GET (js "/api/tickets") NoBody)
    with (ViteApi.ticketService_getAllTickets serve VITE_API_URL) in Hrun.
  unfold useTickets.fetchTickets, try_finally; hook_steps. cbn.
  destruct (ViteApi.ticketService_getAllTickets _ _ _) as [r b1].
  cbn in Hcall; subst r. cbn.
  eexists; split; [reflexivity|]; cbn.
  destruct Hrun as (_ & Hcase). destruct (decide _); [|done].
  destruct Hcase as (-> & ->). split_and!; try done.
  apply lookup_delete_eq.
Qed.

(** X13: an identifier that no record of the list has changes nothing: an
    accepted update leaves the list as it was (the returned record is not
    added), and so does an accepted delete. *)
Theorem unknown_id_keeps_list (id' : TicketId)
    (p : Page (Browser Server) useTickets.State) :
  Forall (λ ticket, id ticket ≠ id') (useTickets.tickets (state p)) →
  (∀ ticketData response,
     fst (ViteApi.ticketService_updateTicket serve VITE_API_URL id' ticketData
            (browser p)) = Resolve response →
     fst (useTickets.updateTicket serve VITE_API_URL id' ticketData p)
       = Resolve (Success (data response)) ∧
     state (snd (useTickets.updateTicket serve VITE_API_URL id' ticketData p))
       = state p) ∧
  (∀ response,
     fst (ViteApi.ticketService_deleteTicket serve VITE_API_URL id' (browser p))
       = Resolve response →
     state (snd (useTickets.deleteTicket serve VITE_API_URL id' p)) = state p).
Proof.
  intros Hfresh. split.
  - intros ticketData response.
    unfold useTickets.updateTicket; hook_steps.
    destruct (ViteApi.ticketService_updateTicket _ _ _ _ _) as [r b1].
    cbn. intros ->. cbn. split; [done|].
    destruct (state p) as [l ld e]; cbn in *. f_equal.
    induction Hfresh as [|t l Ht _ IH]; [done|].
    cbn. rewrite IH. by destruct (decide _).
  - intros response.
    unfold useTickets.deleteTicket; hook_steps.
    destruct (ViteApi.ticketService_deleteTicket _ _ _ _) as [r b1].
    cbn. intros ->. cbn.
    destruct (state p) as [l ld e]; cbn in *. f_equal.
    by apply filter_keeps_all.
Qed.

(** X14: a create followed by a delete of the created record gives back the
    list from before the create, when the server gave the record an
    identifier no listed record had. *)
Theorem create_then_delete_restores (ticketData : TicketData)
    (p : Page (Browser Server) useTickets.State)
    (created : Response Ticket) (deleted : Response unit) :
  let p1 := snd (useTickets.createTicket serve VITE_API_URL ticketData p) in
  fst (ViteApi.ticketService_createTicket serve VITE_API_URL ticketData
         (browser p)) = Resolve created →
  Forall (λ ticket, id ticket ≠ id (data created))
    (useTickets.tickets (state p)) →
  fst (ViteApi.ticketService_deleteTicket serve VITE_API_URL
         (id (data created)) (browser p1)) = Resolve deleted →
  state (snd (useTickets.deleteTicket serve VITE_API_URL
                (id (data created)) p1)) = state p.
Proof.
  intros p1 Hcreate Hfresh; subst p1.
  unfold useTickets.createTicket; hook_steps.
  destruct (ViteApi.ticketService_createTicket _ _ _ _) as [r b1].
  cbn in Hcreate; subst r. cbn.
  unfold useTickets.deleteTicket; hook_steps. cbn -[filter].
  destruct (ViteApi.ticketService_deleteTicket _ _ _ _) as [r b2].
  cbn -[filter]. intros ->. cbn -[filter].
  destruct (state p) as [l ld e]; cbn -[filter] in *. f_equal.
  rewrite filter_cons_False by (intros Hne; by apply Hne).
  by apply filter_keeps_all.
Qed.

End TicketListProperties.

Lemma fetchTickets_unauthorized_witness :
  let err := Sample.http_error 401 None in
  let p := Sample.page0 Sample.listed in
  response_status err = Some 401 ∧
  ∃ p',
    useTickets.fetchTickets (Sample.failing err) None p = (Resolve tt, p') ∧
    localStorage (browser p') !! js "authToken" = None ∧
    location_href (browser p') = js "/login" ∧
    useTickets.tickets (state p') = [Sample.ticket1; Sample.ticket2].
Proof.
  intros err p. split; [reflexivity|].
  destruct (fetchTickets_unauthorized (Sample.failing err) None p err
              ltac:(vm_compute; reflexivity) eq_refl)
    as (p' & Hrun & Htoken & Hhref & Htickets & _).
  exists p'. split_and!; [exact Hrun | exact Htoken | exact Hhref |
                          exact Htickets].
Defined.

Lemma unknown_id_keeps_list_witness :
  let p := Sample.page0 Sample.listed in
  Forall (λ ticket, id ticket ≠ IdNum 7) (useTickets.tickets (state p)) ∧
  fst (useTickets.updateTicket Sample.closing None (IdNum 7) Sample.draft p)
    = Resolve (Success Sample.ticket2') ∧
  useTickets.tickets
    (state (snd (useTickets.updateTicket Sample.closing None (IdNum 7)
                   Sample.draft p)))
    = [Sample.ticket1; Sample.ticket2] ∧
  useTickets.tickets
    (state (snd (useTickets.deleteTicket Sample.up None (IdNum 7) p)))
    = [Sample.ticket1; Sample.ticket2].
Proof.
  intros p.
  assert (Forall (λ ticket, id ticket ≠ IdNum 7)
            (useTickets.tickets (state p))) as Hfresh.
  { repeat constructor; discriminate. }
  split; [exact Hfresh|].
  destruct (unknown_id_keeps_list Sample.closing None (IdNum 7) p Hfresh)
    as (Hupdate & _).
  destruct (unknown_id_keeps_list Sample.up None (IdNum 7) p Hfresh)
    as (_ & Hdelete).
  destruct (Hupdate Sample.draft {| data := Sample.ticket2' |}
              ltac:(vm_compute; reflexivity)) as (Hresult & Hstate).
  split_and!.
  - exact Hresult.
  - by rewrite Hstate.
  - by rewrite (Hdelete {| data := tt |} ltac:(vm_compute; reflexivity)).
Defined.

Lemma create_then_delete_restores_witness :
  let p := Sample.page0 Sample.listed in
  let p1 := snd (useTickets.createTicket Sample.up None Sample.draft p) in
  useTickets.tickets (state p1)
    = [Sample.ticket3; Sample.ticket1; Sample.ticket2] ∧
  useTickets.tickets
    (state (snd (useTickets.deleteTicket Sample.up None (IdNum 3) p1)))
    = [Sample.ticket1; Sample.ticket2].
Proof.
  intros p p1. split; [vm_compute; reflexivity|].
  assert (Forall (λ ticket, id ticket ≠ IdNum 3)
            (useTickets.tickets (state p))) as Hfresh.
  { repeat constructor; discriminate. }
  exact (f_equal useTickets.tickets
           (create_then_delete_restores Sample.up None Sample.draft p
              {| data := Sample.ticket3 |} {| data := tt |}
              ltac:(vm_compute; reflexivity) Hfresh
              ltac:(vm_compute; reflexivity))).
Defined.

(** ** The pages *)

Section PageProperties.
Context {Server : Type}.
Variable serve : Backend Server.
Variable VITE_API_URL : option JsString.

(** X15: [handleSubmit] of the login page never throws and always ends with
    [loading] false and the form as it was.  It calls [login] with the
    user name and password of the form, or [register] with the whole form,
    depending on the mode.  On success the error is empty and the location
    is [/]; on failure the error shown is the one the hook returned and
    there is no navigation by the page. *)
Theorem handleSubmit_outcome (p : Page (Browser Server) Login.State) :
  let s := state p in
  let call :=
    if Login.isLogin s
    then useAuth.login serve VITE_API_URL
           {| cred_username := reg_username (Login.formData s);
              cred_password := reg_password (Login.formData s) |}
    else useAuth.register serve VITE_API_URL (Login.formData s) in
  let q := snd (call {| browser := browser p; state := Login.auth s |}) in
  ∃ result,
    fst (call {| browser := browser p; state := Login.auth s |})
      = Resolve result ∧
    Login.handleSubmit serve VITE_API_URL p
      = (Resolve tt,
         {| browser :=
              match result with
              | Success _ =>
                  {| localStorage := localStorage (browser q);
                     location_href := js "/";
                     server := server (browser q);
                     sent := sent (browser q) |}
              | Failure _ => browser q
              end;
            state :=
              {| Login.auth := state q;
                 Login.isLogin := Login.isLogin s;
                 Login.formData := Login.formData s;
                 Login.loading := false;
                 Login.error :=
                   match result with
                   | Success _ => js ""
                   | Failure e => e
                   end |} |}).
Proof.
  intros s call q; subst s call q.
  unfold Login.handleSubmit, try_finally, try_catch, then_, bind,
    Login.setLoading, Login.setError, setState, modify, gets, zoom, navigate,
    in_browser, set_location_href, modify.
  cbn [state browser Login.isLogin Login.formData Login.auth fst snd
       Login.loading Login.error].
  destruct (Login.isLogin (state p)).
  - destruct (login_never_rejects serve VITE_API_URL
                {| cred_username := reg_username (Login.formData (state p));
                   cred_password := reg_password (Login.formData (state p)) |}
                {| browser := browser p; state := Login.auth (state p) |})
      as [result Hresult].
    exists result. split; [exact Hresult|].
    destruct (useAuth.login _ _ _ _) as [r q]. cbn in Hresult; subst r.
    by destruct result.
  - destruct (register_never_rejects serve VITE_API_URL
                (Login.formData (state p))
                {| browser := browser p; state := Login.auth (state p) |})
      as [result Hresult].
    exists result. split; [exact Hresult|].
    destruct (useAuth.register _ _ _ _) as [r q]. cbn in Hresult; subst r.
    by destruct result.
Qed.

(** X16: [handleCreateTicket] of the tickets page never throws.  When the
    create is accepted the record is in front of the list, the form is
    closed and its fields are blank again; when it fails the page's state
    is as it was: the form stays open with what was typed, and the page
    shows the same as before (no error message). *)
Theorem handleCreateTicket_outcome (p : Page (Browser Server) Tickets.State) :
  match ViteApi.ticketService_createTicket serve VITE_API_URL
          (Tickets.newTicket (state p)) (browser p) with
  | (Resolve response, b1) =>
      Tickets.handleCreateTicket serve VITE_API_URL p
        = (Resolve tt,
           {| browser := b1;
              state :=
                {| Tickets.hook :=
                     {| useTickets.tickets :=
                          data response
                          :: useTickets.tickets (Tickets.hook (state p));
                        useTickets.loading :=
                          useTickets.loading (Tickets.hook (state p));
                        useTickets.error :=
                          useTickets.error (Tickets.hook (state p)) |};
                   Tickets.showCreateForm := false;
                   Tickets.newTicket := Tickets.blank |} |})
  | (Reject _, b1) =>
      Tickets.handleCreateTicket serve VITE_API_URL p
        = (Resolve tt, {| browser := b1; state := state p |}) ∧
      Tickets.render
        (state (snd (Tickets.handleCreateTicket serve VITE_API_URL p)))
        = Tickets.render (state p)
  end.
Proof.
  unfold Tickets.handleCreateTicket, useTickets.createTicket, zoom, gets;
    hook_steps. cbn.
  destruct (ViteApi.ticketService_createTicket _ _ _ _)
    as [[response|error] b1]; cbn; [done|].
  by destruct (state p) as [[l ld e] shown form].
Qed.

(** X17: [handleDelete] of the tickets page never throws.  When the user
    declines the confirmation nothing is sent and nothing changes.  When
    the user confirms, an accepted delete filters the list and leaves the
    form alone, and a failed one leaves the page's state as it was. *)
Theorem handleDelete_outcome (id' : TicketId)
    (p : Page (Browser Server) Tickets.State) :
  Tickets.handleDelete serve VITE_API_URL false id' p = (Resolve tt, p) ∧
  match ViteApi.ticketService_deleteTicket serve VITE_API_URL id' (browser p)
  with
  | (Resolve _, b1) =>
      Tickets.handleDelete serve VITE_API_URL true id' p
        = (Resolve tt,
           {| browser := b1;
              state :=
                {| Tickets.hook :=
                     {| useTickets.tickets :=
                          filter (λ ticket, id ticket ≠ id')
                            (useTickets.tickets (Tickets.hook (state p)));
                        useTickets.loading :=
                          useTickets.loading (Tickets.hook (state p));
                        useTickets.error :=
                          useTickets.error (Tickets.hook (state p)) |};
                   Tickets.showCreateForm := Tickets.showCreateForm (state p);
                   Tickets.newTicket := Tickets.newTicket (state p) |} |})
  | (Reject _, b1) =>
      Tickets.handleDelete serve VITE_API_URL true id' p
        = (Resolve tt, {| browser := b1; state := state p |})
  end.
Proof.
  split; [done|].
  unfold Tickets.handleDelete, useTickets.deleteTicket, zoom; hook_steps.
  cbn -[filter].
  destruct (ViteApi.ticketService_deleteTicket _ _ _ _)
    as [[response|error] b1]; cbn -[filter]; [done|].
  by destruct (state p) as [[l ld e] shown form].
Qed.

(** X18: after any run of the health check the two indicators show the same
    text and colour, and never the "checking" ones. *)
Theorem indicators_agree_after_check
    (p : Page (Browser Server) useApiHealth.State) :
  let s := state (snd (useApiHealth.checkHealth serve VITE_API_URL p)) in
  HealthStatus.getStatusText (useApiHealth.backendStatus s)
    = HealthStatus.getStatusText (useApiHealth.dbStatus s) ∧
  HealthStatus.getStatusColor (useApiHealth.backendStatus s)
    = HealthStatus.getStatusColor (useApiHealth.dbStatus s) ∧
  HealthStatus.getStatusText (useApiHealth.backendStatus s)
    ≠ js "Verificando..." ∧
  HealthStatus.getStatusColor (useApiHealth.backendStatus s)
    ≠ js "#ff9800".
Proof.
  unfold useApiHealth.checkHealth; hook_steps.
  destruct (ViteApi.healthService_checkBackend _ _ _) as [[r1|e1] b1]; cbn.
  - destruct (ViteApi.healthService_checkDatabase _ _ _) as [[r2|e2] b2];
      cbn; split_and!; try done; by vm_compute.
  - split_and!; try done; by vm_compute.
Qed.

End PageProperties.

(** X19: the dashboard's three counters add up to its total, for every
    list. *)
Theorem stats_add_up (tickets : list Ticket) :
  (Dashboard.open (Dashboard.stats tickets)
   + Dashboard.inProgress (Dashboard.stats tickets)
   + Dashboard.closed (Dashboard.stats tickets)
   = Dashboard.total (Dashboard.stats tickets))%nat.
Proof.
  unfold Dashboard.stats; cbn -[filter].
  induction tickets as [|t l IH]; [done|].
  rewrite !filter_cons. cbn [length].
  destruct (status t); repeat (destruct (decide _); try done); cbn [length]; lia.
Qed.

Section MinimalAppProperties.
Context {Json Server : Type}.
Variable serve : Fetch.Backend Json Server.
Variable env : Fetch.ProcessEnv.
Variable api : App.ApiRevision.

(** X20: [fetchTickets] of the minimal component sends the list request and
    nothing else.  A response with a JSON body replaces the list and keeps
    the title; with no response, or a body that is not JSON, the call
    rejects and the state is as it was. *)
Theorem minimal_fetchTickets_outcome
    (p : Page (Fetch.Network Server) (App.State Json)) :
  let request := App.list_request env api in
  let reply := serve request (Fetch.server (browser p)) in
  let network :=
    {| Fetch.server := snd reply;
       Fetch.sent := Fetch.sent (browser p) ++ [request] |} in
  App.fetchTickets serve env api p =
    match fst reply with
    | Some res =>
        match Fetch.json_body res with
        | Some data =>
            (Resolve tt,
             {| browser := network;
                state := {| App.tickets := data;
                            App.title := App.title (state p) |} |})
        | None =>
            (Reject Fetch.SyntaxError,
             {| browser := network; state := state p |})
        end
    | None =>
        (Reject Fetch.NetworkError, {| browser := network; state := state p |})
    end.
Proof.
  intros request reply network; subst request reply network.
  unfold App.fetchTickets, bind, in_browser.
  rewrite getTickets_exchange, exchange_run.
  destruct (fst (serve _ _)) as [res|]; [|done].
  by destruct (Fetch.json_body res).
Qed.

End MinimalAppProperties.

Section MoreHookProperties.
Context {Server : Type}.
Variable serve : Backend Server.
Variable VITE_API_URL : option JsString.

(** X21: a health check sends the backend probe [GET /health] first, and
    the database probe [GET /api/health/db] after it only when the backend
    probe succeeded; nothing else is sent. *)
Theorem checkHealth_requests (p : Page (Browser Server) useApiHealth.State) :
  let base := ViteApi.API_BASE_URL VITE_API_URL in
  let b := browser p in
  sent (browser (snd (useApiHealth.checkHealth serve VITE_API_URL p)))
  = match fst (ViteApi.healthService_checkBackend serve VITE_API_URL b) with
    | Resolve _ =>
        sent b ++ [outgoing base GET (js "/health") NoBody b;
                   outgoing base GET (js "/api/health/db") NoBody b]
    | Reject _ =>
        sent b ++ [outgoing base GET (js "/health") NoBody b]
    end.
Proof.
  intros base b; subst base b.
  pose proof (api_request_session serve VITE_API_URL Ignored GET
                (js "/health") NoBody (browser p)) as Hfirst.
  change (api_request serve (ViteApi.API_BASE_URL VITE_API_URL) Ignored
            GET (js "/health") NoBody)
    with (ViteApi.healthService_checkBackend serve VITE_API_URL) in Hfirst.
  unfold useApiHealth.checkHealth; hook_steps.
  destruct (ViteApi.healthService_checkBackend _ _ _) as [[r1|e1] b1]; cbn.
  - destruct Hfirst as (Hsent1 & Hstore & _).
    pose proof (api_request_session serve VITE_API_URL Ignored GET
                  (js "/api/health/db") NoBody b1) as Hsecond.
    change (api_request serve (ViteApi.API_BASE_URL VITE_API_URL) Ignored
              GET (js "/api/health/db") NoBody)
      with (ViteApi.healthService_checkDatabase serve VITE_API_URL)
      in Hsecond.
    assert (outgoing (ViteApi.API_BASE_URL VITE_API_URL) GET
              (js "/api/health/db") NoBody b1
            = outgoing (ViteApi.API_BASE_URL VITE_API_URL) GET
                (js "/api/health/db") NoBody (browser p)) as Hsame.
    { unfold outgoing. by rewrite Hstore. }
    destruct (ViteApi.healthService_checkDatabase _ _ _) as [[r2|e2] b2];
      cbn; destruct Hsecond as (-> & _);
      by rewrite Hsent1, Hsame, <- app_assoc.
  - by destruct Hfirst as (-> & _).
Qed.

(** X22: what the tickets page shows after [fetchTickets]: the cards of the
    answer, or the empty notice when the answer is empty; and after a failed
    fetch only the error message, whatever the list holds. *)
Theorem page_after_fetch (p : Page (Browser Server) Tickets.State) :
  let fetched :=
    useTickets.fetchTickets serve VITE_API_URL
      {| browser := browser p; state := Tickets.hook (state p) |} in
  Tickets.render (Tickets.with_hook (state (snd fetched)) (state p))
  = match fst (ViteApi.ticketService_getAllTickets serve VITE_API_URL
                 (browser p)) with
    | Resolve response =>
        match data response with
        | [] => Tickets.NoTickets
        | l => Tickets.Cards l
        end
    | Reject err =>
        Tickets.ErrorMessage
          (or_else (response_data_message err) (js "Error al cargar tickets"))
    end.
Proof.
  intros fetched; subst fetched.
  unfold useTickets.fetchTickets, try_finally; hook_steps. cbn.
  destruct (ViteApi.ticketService_getAllTickets _ _ _)
    as [[response|err] b1]; cbn.
  - reflexivity.
  - unfold Tickets.render; cbn.
    by rewrite (or_else_truthy _ (js "Error al cargar tickets")).
Qed.

End MoreHookProperties.
